(** * WeasyPrint bridges for Node.js: a shallow embedding

    Two entry-point scripts are modelled:
    - [weasyprint_bridge_secure.py]   (module [Secure]):  one JSON request per
      process, JSON envelope on standard output, exit status 0 or 1;
    - [weasyprint_bridge_optimized.py] (module [Fast]):   a persistent loop
      that writes raw PDF bytes on standard output.

    Both scripts are glue around three libraries: [json], [base64] and
    WeasyPrint.  [base64.b64encode] is modelled concretely (RFC 4648, standard
    alphabet, padding).  [json.loads], [json.dumps], [traceback.format_exc]
    and the WeasyPrint calls [HTML], [CSS], [write_pdf] are not part of the
    repository; they are the fields of the class [Libraries], and every
    statement below holds for all its instances.

    Python text ([str]) is modelled by [String.string]; a character is a code
    point below 256.  Python [bytes] are [list Byte.byte]. *)

From Stdlib Require Import List String Ascii ZArith NArith Bool Lia.
From Stdlib.Strings Require Import Byte.
From Stdlib Require Import DecimalString.
From Stdlib Require Import Floats.SpecFloat.
Import ListNotations.

Set Warnings "-register-all".

Local Open Scope string_scope.
Local Open Scope Z_scope.

(* ===================================================================== *)
(** ** Python values that appear in the scripts *)
(* ===================================================================== *)

(** What [json.loads] can return: [None], [bool], [int], [float], [str],
    [list] and [dict].  A [dict] keeps its insertion order, which is the order
    [json.dumps] writes the keys in. *)
Inductive json : Type :=
| JNull
| JBool (b : bool)
| JInt (z : Z)
| JFloat (f : spec_float)
| JStr (s : string)
| JList (l : list json)
| JObj (kv : list (string * json)).

Definition bytes := list byte.

(** Python truth value testing, as used by [if not html_content] and
    [if css_content]. *)
Definition truthy (v : json) : bool :=
  match v with
  | JNull => false
  | JBool b => b
  | JInt z => negb (z =? 0)
  | JFloat (S754_zero _) => false
  | JFloat _ => true
  | JStr s => negb (s =? "")%string
  | JList l => match l with [] => false | _ => true end
  | JObj kv => match kv with [] => false | _ => true end
  end.

(** The line end ["\n"]. *)
Definition newline : string := String "010"%char "".

(** [d[k]] for a dict given by its items. *)
Fixpoint lookup (k : string) (kv : list (string * json)) : option json :=
  match kv with
  | [] => None
  | (k', v) :: rest => if (k =? k')%string then Some v else lookup k rest
  end.

(** [dict.get(k, default)]. *)
Definition dict_get (k : string) (default : json) (kv : list (string * json)) : json :=
  match lookup k kv with
  | Some v => v
  | None => default
  end.

(* ===================================================================== *)
(** ** Exceptions *)
(* ===================================================================== *)

(** The exception classes the scripts raise or name in an [except] clause. *)
Inductive exn_class : Type :=
| CBaseException
| CSystemExit
| CException
| CValueError
| CJSONDecodeError
| CAttributeError.

Inductive exn : Type :=
| SystemExit (code : Z)
| PlainException (msg : string)
| ValueError (msg : string)
| JSONDecodeError (msg : string)
| AttributeError (msg : string).

Definition class_of (e : exn) : exn_class :=
  match e with
  | SystemExit _ => CSystemExit
  | PlainException _ => CException
  | ValueError _ => CValueError
  | JSONDecodeError _ => CJSONDecodeError
  | AttributeError _ => CAttributeError
  end.

(** [issubclass c d]: [SystemExit] derives from [BaseException] only;
    [json.JSONDecodeError] derives from [ValueError]. *)
Definition issubclass (c d : exn_class) : bool :=
  match d, c with
  | CBaseException, _ => true
  | CSystemExit, CSystemExit => true
  | CException, (CException | CValueError | CJSONDecodeError | CAttributeError) => true
  | CValueError, (CValueError | CJSONDecodeError) => true
  | CJSONDecodeError, CJSONDecodeError => true
  | CAttributeError, CAttributeError => true
  | _, _ => false
  end.

Definition isinstance (e : exn) (c : exn_class) : bool := issubclass (class_of e) c.

(** [str(e)]. *)
Definition str_exn (e : exn) : string :=
  match e with
  | SystemExit _ => ""
  | PlainException m | ValueError m | JSONDecodeError m | AttributeError m => m
  end.

(* ===================================================================== *)
(** ** The process: standard input, and the trace of what it did *)
(* ===================================================================== *)

(** Everything observable, in the order it happened. *)
Inductive event : Type :=
| Readline (line : string)            (* sys.stdin.readline() returned [line] *)
| StdoutText (s : string)             (* print(...) *)
| StdoutBytes (b : bytes)             (* sys.stdout.buffer.write(...) *)
| StdoutFlush                         (* sys.stdout.flush() *)
| StderrText (s : string)             (* sys.stderr.write(...) *)
| StderrFlush                         (* sys.stderr.flush() *)
| StderrTraceback (e : exn)           (* the interpreter reporting an uncaught exception *)
| LibHTML (source : json) (base_url : string)   (* HTML(string=..., base_url=...) *)
| LibCSS (source : json)                         (* CSS(string=..., font_config=...) *)
| LibWritePdf.                                   (* html_doc.write_pdf(...) *)

(** [stdin]: the lines not read yet (each as [readline] returns it, with its
    line end).  [trace]: the events so far, oldest first.  [input_data]: the
    binding of the local variable [input_data] of [main], [None] while it is
    unbound: the secure bridge asks ['input_data' in locals()]. *)
Record state : Type := mkState {
  stdin : list string;
  trace : list event;
  input_data : option json
}.

Definition initial (lines : list string) : state := mkState lines [] None.

(** A computation either returns or raises, and changes the state either way. *)
Definition M (A : Type) : Type := state -> (A + exn) * state.

Definition ret {A} (a : A) : M A := fun s => (inl a, s).

Definition raise {A} (e : exn) : M A := fun s => (inr e, s).

Definition bind {A B} (m : M A) (k : A -> M B) : M B :=
  fun s => match m s with
           | (inl a, s') => k a s'
           | (inr e, s') => (inr e, s')
           end.

Notation "x <- m ;; k" := (bind m (fun x => k))
  (at level 61, m at next level, right associativity).
Notation "m ;;; k" := (bind m (fun _ => k))
  (at level 61, right associativity).

Definition emit (ev : event) : M unit :=
  fun s => (inl tt, mkState (stdin s) (trace s ++ [ev]) (input_data s)).

(** [sys.stdin.readline()]: the next line, or the empty string at end of input. *)
Definition readline : M string :=
  fun s => match stdin s with
           | [] => (inl "", mkState [] (trace s ++ [Readline ""]) (input_data s))
           | l :: rest => (inl l, mkState rest (trace s ++ [Readline l]) (input_data s))
           end.

(** The assignment [input_data = v]. *)
Definition assign_input_data (v : json) : M unit :=
  fun s => (inl tt, mkState (stdin s) (trace s) (Some v)).

(** [locals().get('input_data')]. *)
Definition local_input_data : M (option json) :=
  fun s => (inl (input_data s), s).

(** [print(s)]. *)
Definition print (s : string) : M unit := emit (StdoutText (s ++ newline)).

(** [sys.exit(code)]. *)
Definition sys_exit {A} (code : Z) : M A := raise (SystemExit code).

(** [type(v).__name__]. *)
Definition type_name (v : json) : string :=
  match v with
  | JNull => "NoneType"
  | JBool _ => "bool"
  | JInt _ => "int"
  | JFloat _ => "float"
  | JStr _ => "str"
  | JList _ => "list"
  | JObj _ => "dict"
  end.

(** The exception of an attribute access [v.attr] that [v] does not have. *)
Definition no_attribute (v : json) (attr : string) : exn :=
  AttributeError ("'" ++ type_name v ++ "' object has no attribute '" ++ attr ++ "'").

(** [o.get(k, default)]: defined on a dict only. *)
Definition py_get (o : json) (k : string) (default : json) : M json :=
  match o with
  | JObj kv => ret (dict_get k default kv)
  | _ => raise (no_attribute o "get")
  end.

(* ===================================================================== *)
(** ** [str.strip()] *)
(* ===================================================================== *)

(** [str.isspace()] on one character: the code points below 256 that Python
    counts as whitespace. *)
Definition isspace (c : ascii) : bool :=
  let n := N_of_ascii c in
  ((9 <=? n) && (n <=? 13) || (28 <=? n) && (n <=? 32) || (n =? 133) || (n =? 160))%N.

Fixpoint lstrip (s : string) : string :=
  match s with
  | String c s' => if isspace c then lstrip s' else s
  | EmptyString => EmptyString
  end.

Fixpoint rstrip (s : string) : string :=
  match s with
  | String c s' =>
      match rstrip s' with
      | EmptyString => if isspace c then EmptyString else String c EmptyString
      | r => String c r
      end
  | EmptyString => EmptyString
  end.

Definition strip (s : string) : string := rstrip (lstrip s).

(** A line made of whitespace only. *)
Fixpoint blank (s : string) : bool :=
  match s with
  | String c s' => isspace c && blank s'
  | EmptyString => true
  end.

(* ===================================================================== *)
(** ** [base64.b64encode] and its inverse (RFC 4648, section 4) *)
(* ===================================================================== *)

Module Base64.

Local Open Scope N_scope.

Definition alphabet : string :=
  "ABCDEFGHIJKLMNOPQRSTUVWXYZabcdefghijklmnopqrstuvwxyz0123456789+/".

Definition pad : ascii := "="%char.

(** The character that stands for a 6-bit value. *)
Definition encode_char (n : N) : ascii :=
  match String.get (N.to_nat n) alphabet with
  | Some c => c
  | None => pad
  end.

(** The 6-bit value of a character of the alphabet. *)
Definition decode_char (c : ascii) : option N :=
  let n := N_of_ascii c in
  if (65 <=? n) && (n <=? 90) then Some (n - 65)
  else if (97 <=? n) && (n <=? 122) then Some (n - 71)
  else if (48 <=? n) && (n <=? 57) then Some (n + 4)
  else if n =? 43 then Some 62
  else if n =? 47 then Some 63
  else None.

(** Three input bytes as one 24-bit group. *)
Definition group24 (a b c : N) : N :=
  N.lor (N.shiftl a 16) (N.lor (N.shiftl b 8) c).

(** The 6 bits of [n] that start at bit [i]. *)
Definition sextet (n i : N) : N := N.land (N.shiftr n i) 63.

(** The 8 bits of [n] that start at bit [i]. *)
Definition octet (n i : N) : N := N.land (N.shiftr n i) 255.

(** Four 6-bit values as one 24-bit group. *)
Definition ungroup24 (s0 s1 s2 s3 : N) : N :=
  N.lor (N.shiftl s0 18) (N.lor (N.shiftl s1 12) (N.lor (N.shiftl s2 6) s3)).

Definition chr6 (n i : N) : ascii := encode_char (sextet n i).

(** [base64.b64encode(bs).decode('utf-8')]: the output is ASCII, so decoding
    it as UTF-8 gives the same characters. *)
Fixpoint b64encode (bs : bytes) : string :=
  match bs with
  | [] => EmptyString
  | [a] =>
      let n := group24 (Byte.to_N a) 0 0 in
      String (chr6 n 18) (String (chr6 n 12) (String pad (String pad EmptyString)))
  | [a; b] =>
      let n := group24 (Byte.to_N a) (Byte.to_N b) 0 in
      String (chr6 n 18) (String (chr6 n 12) (String (chr6 n 6) (String pad EmptyString)))
  | a :: b :: c :: rest =>
      let n := group24 (Byte.to_N a) (Byte.to_N b) (Byte.to_N c) in
      String (chr6 n 18) (String (chr6 n 12) (String (chr6 n 6) (String (chr6 n 0)
        (b64encode rest))))
  end.

Definition byte_at (n i : N) : option byte := Byte.of_N (octet n i).

(** Decoding of one group of four characters, [k] of which are padding. *)
Definition decode_full (c0 c1 c2 c3 : ascii) : option bytes :=
  match decode_char c0, decode_char c1, decode_char c2, decode_char c3 with
  | Some s0, Some s1, Some s2, Some s3 =>
      let n := ungroup24 s0 s1 s2 s3 in
      match byte_at n 16, byte_at n 8, byte_at n 0 with
      | Some a, Some b, Some c => Some [a; b; c]
      | _, _, _ => None
      end
  | _, _, _, _ => None
  end.

Definition decode_pad1 (c0 c1 c2 : ascii) : option bytes :=
  match decode_char c0, decode_char c1, decode_char c2 with
  | Some s0, Some s1, Some s2 =>
      let n := ungroup24 s0 s1 s2 0 in
      match byte_at n 16, byte_at n 8 with
      | Some a, Some b => Some [a; b]
      | _, _ => None
      end
  | _, _, _ => None
  end.

Definition decode_pad2 (c0 c1 : ascii) : option bytes :=
  match decode_char c0, decode_char c1 with
  | Some s0, Some s1 =>
      let n := ungroup24 s0 s1 0 0 in
      match byte_at n 16 with
      | Some a => Some [a]
      | None => None
      end
  | _, _ => None
  end.

(** The decoder of RFC 4648: groups of four characters, padding in the last
    group only. *)
Fixpoint b64decode (s : string) : option bytes :=
  match s with
  | EmptyString => Some []
  | String c0 (String c1 (String c2 (String c3 rest))) =>
      match rest with
      | EmptyString =>
          if Ascii.eqb c3 pad
          then if Ascii.eqb c2 pad then decode_pad2 c0 c1 else decode_pad1 c0 c1 c2
          else decode_full c0 c1 c2 c3
      | _ =>
          match decode_full c0 c1 c2 c3, b64decode rest with
          | Some g, Some tl => Some (g ++ tl)%list
          | _, _ => None
          end
      end
  | _ => None
  end.

(** The check that a 6-bit value has its own character, which is not the
    padding. *)
Definition char_ok (n : N) : bool :=
  match decode_char (encode_char n) with
  | Some m => (m =? n) && negb (Ascii.eqb (encode_char n) pad)
  | None => false
  end.

End Base64.

(* ===================================================================== *)
(** ** The libraries the scripts call *)
(* ===================================================================== *)

(** What the scripts import and do not define.  A call that raises gives
    [inr msg]: [json.loads] raises [json.JSONDecodeError(msg)], a WeasyPrint
    call raises an instance of [Exception] whose [str] is [msg].
    [FontConfiguration_new] is the value of [FontConfiguration()].
    Each call is a function of its arguments.  Not modelled: an exception of
    [json.loads] other than [JSONDecodeError] (recursion depth, integer
    digit limit), and failures of the streams themselves.

    The WeasyPrint fields stand for what the library answers, not for how it
    comes to it.  The scripts create one [FontConfiguration] object and hand
    it to every [CSS] and [write_pdf] call; the library may change it, reads
    resources under the base URL ["."], and may put into a PDF what it
    derives from the moment of the call.  None of that is in the model,
    which takes an answer for a pair [(html, css)] as given.  The statements
    below are about what the bridges read, call, write and return around
    those answers; whether two renders of the same input give the same bytes
    is not among them. *)
Class Libraries : Type := {
  html_document : Type;
  stylesheet : Type;
  font_configuration : Type;
  json_loads : string -> json + string;
  json_dumps : json -> string;
  format_exc : exn -> string;
  FontConfiguration_new : font_configuration;
  HTML : json -> string -> html_document + string;
  CSS : json -> font_configuration -> stylesheet + string;
  write_pdf : html_document -> list stylesheet -> font_configuration -> bool -> bytes + string
}.

(** [try: m  except c1 as e: h1 e  except c2 as e: h2 e ...]: the first clause
    whose class the exception is an instance of handles it; an exception
    raised by a handler is not handled by the clauses of the same [try]. *)
Fixpoint select_clause {A} (clauses : list (exn_class * (exn -> M A))) (e : exn)
  : option (exn -> M A) :=
  match clauses with
  | [] => None
  | (c, h) :: rest => if isinstance e c then Some h else select_clause rest e
  end.

Definition try_clauses {A} (m : M A) (clauses : list (exn_class * (exn -> M A))) : M A :=
  fun s => match m s with
           | (inl a, s') => (inl a, s')
           | (inr e, s') =>
               match select_clause clauses e with
               | Some h => h e s'
               | None => (inr e, s')
               end
           end.

(** A library call: it is recorded in the trace, then returns or raises. *)
Definition lib_call {A} (ev : event) (r : A + string) : M A :=
  emit ev ;;;
  match r with
  | inl a => ret a
  | inr msg => raise (PlainException msg)
  end.

(** [json.loads(s)]. *)
Definition loads `{Libraries} (s : string) : M json :=
  match json_loads s with
  | inl v => ret v
  | inr msg => raise (JSONDecodeError msg)
  end.

Definition ready_line : string := "WeasyPrint bridge ready" ++ newline.

(** The exit status and the trace of a finished script. *)
Definition finish (r : (unit + exn) * state) : list event * Z :=
  match r with
  | (inl _, s) => (trace s, 0)
  | (inr (SystemExit code), s) => (trace s, code)
  | (inr e, s) => ((trace s ++ [StderrTraceback e])%list, 1)
  end.

(** What was written on standard output, in order. *)
Definition is_stdout (ev : event) : bool :=
  match ev with
  | StdoutText _ | StdoutBytes _ => true
  | _ => false
  end.

Definition stdout_writes (t : list event) : list event := filter is_stdout t.

(** What was written on the diagnostic stream, in order. *)
Definition is_stderr (ev : event) : bool :=
  match ev with
  | StderrText _ | StderrTraceback _ => true
  | _ => false
  end.

Definition stderr_writes (t : list event) : list event := filter is_stderr t.

(** The calls into WeasyPrint. *)
Definition is_render (ev : event) : bool :=
  match ev with
  | LibHTML _ _ | LibCSS _ | LibWritePdf => true
  | _ => false
  end.

Definition render_calls (t : list event) : list event := filter is_render t.

(** The raw bytes written on standard output, concatenated. *)
Fixpoint stdout_bytes (t : list event) : bytes :=
  match t with
  | [] => []
  | StdoutBytes b :: t' => (b ++ stdout_bytes t')%list
  | _ :: t' => stdout_bytes t'
  end.

(* ===================================================================== *)
(** ** weasyprint_bridge_secure.py *)
(* ===================================================================== *)

Module Secure.
Section WithLibraries.
Context `{Libraries}.

(** [FONT_CONFIG = FontConfiguration()] *)
Definition FONT_CONFIG : font_configuration := FontConfiguration_new.

Definition generate_pdf_secure (html_content css_content : json) : M bytes :=
  try_clauses
    (html_doc <- lib_call (LibHTML html_content ".") (HTML html_content ".") ;;
     stylesheets <-
       (if truthy css_content
        then sheet <- lib_call (LibCSS css_content) (CSS css_content FONT_CONFIG) ;;
             ret [sheet]
        else ret []) ;;
     lib_call LibWritePdf (write_pdf html_doc stylesheets FONT_CONFIG false))
    [(CException,
      fun e => raise (PlainException ("PDF generation failed: " ++ str_exn e)))].

(** The response of the success path. *)
Definition success_response (request_id : json) (pdf_bytes : bytes) : json :=
  JObj [("success", JBool true);
        ("request_id", request_id);
        ("pdf_base64", JStr (Base64.b64encode pdf_bytes));
        ("size", JInt (Z.of_nat (List.length pdf_bytes)))].

(** The response of the two failure paths. *)
Definition error_response (request_id : json) (error : string) : json :=
  JObj [("success", JBool false);
        ("request_id", request_id);
        ("error", JStr error)].

Definition main : M unit :=
  try_clauses
    (emit (StderrText ready_line) ;;;
     emit StderrFlush ;;;
     line <- readline ;;
     (if (line =? "")%string then sys_exit 1 else ret tt) ;;;
     parsed <- loads (strip line) ;;
     assign_input_data parsed ;;;
     html_content <- py_get parsed "html" (JStr "") ;;
     css_content <- py_get parsed "css" JNull ;;
     request_id <- py_get parsed "request_id" (JStr "unknown") ;;
     (if negb (truthy html_content)
      then print (json_dumps (error_response request_id "HTML content is required")) ;;;
           sys_exit 1
      else ret tt) ;;;
     pdf_bytes <- generate_pdf_secure html_content css_content ;;
     print (json_dumps (success_response request_id pdf_bytes)) ;;;
     sys_exit 0)
    [(CException,
      fun e =>
        bound <- local_input_data ;;
        request_id <-
          match bound with
          | Some d => py_get d "request_id" (JStr "unknown")
          | None => ret (JStr "unknown")
          end ;;
        print (json_dumps (error_response request_id (str_exn e))) ;;;
        sys_exit 1)].

(** [if __name__ == '__main__': main()] on the given standard input. *)
Definition run (lines : list string) : list event * Z := finish (main (initial lines)).

End WithLibraries.
End Secure.

(* ===================================================================== *)
(** ** weasyprint_bridge_optimized.py *)
(* ===================================================================== *)

Module Fast.

(** How one pass through the body of [while True] ends: at its last
    statement or at [continue] ([Next]), or at [break]. *)
Inductive ctl : Type := Next | Break.

(** [while True: body], unfolded at most [fuel] times; [None] when the fuel
    is used up before the loop ends. *)
Fixpoint while_true (fuel : nat) (body : M ctl) (s : state)
  : option ((unit + exn) * state) :=
  match fuel with
  | O => None
  | S fuel' =>
      match body s with
      | (inl Next, s') => while_true fuel' body s'
      | (inl Break, s') => Some (inl tt, s')
      | (inr e, s') => Some (inr e, s')
      end
  end.

Section WithLibraries.
Context `{Libraries}.

(** [FONT_CONFIG = FontConfiguration()] *)
Definition FONT_CONFIG : font_configuration := FontConfiguration_new.

Definition generate_pdf_fast (html_content css_content : json) : M bytes :=
  try_clauses
    (html_doc <- lib_call (LibHTML html_content ".") (HTML html_content ".") ;;
     stylesheets <-
       (if truthy css_content
        then sheet <- lib_call (LibCSS css_content) (CSS css_content FONT_CONFIG) ;;
             ret [sheet]
        else ret []) ;;
     lib_call LibWritePdf (write_pdf html_doc stylesheets FONT_CONFIG false))
    [(CException,
      fun e => raise (PlainException ("PDF generation failed: " ++ str_exn e)))].

(** The payload the generic handler writes on the diagnostic stream. *)
Definition error_payload (e : exn) : json :=
  JObj [("success", JBool false);
        ("error", JStr (str_exn e));
        ("traceback", JStr (format_exc e))].

(** The body of the loop: the [try] statement with its two [except] clauses. *)
Definition iteration : M ctl :=
  try_clauses
    (line <- readline ;;
     if (line =? "")%string then ret Break else
     parsed <- loads (strip line) ;;
     assign_input_data parsed ;;;
     html_content <- py_get parsed "html" (JStr "") ;;
     css_content <- py_get parsed "css" JNull ;;
     (if negb (truthy html_content)
      then raise (ValueError "HTML content is required")
      else ret tt) ;;;
     pdf_bytes <- generate_pdf_fast html_content css_content ;;
     emit (StdoutBytes pdf_bytes) ;;;
     emit StdoutFlush ;;;
     ret Next)
    [(CJSONDecodeError, fun _ => ret Next);
     (CException,
      fun e =>
        emit (StderrText (json_dumps (error_payload e) ++ newline)) ;;;
        emit StderrFlush ;;;
        ret Break)].

(** The loop of [main], from any state. *)
Definition serve (fuel : nat) (s : state) : option ((unit + exn) * state) :=
  while_true fuel iteration s.

Definition main (fuel : nat) (s : state) : option ((unit + exn) * state) :=
  match (emit (StderrText ready_line) ;;; emit StderrFlush) s with
  | (inl _, s') => serve fuel s'
  | (inr e, s') => Some (inr e, s')
  end.

(** [if __name__ == '__main__': main()] on the given standard input. *)
Definition run (fuel : nat) (lines : list string) : option (list event * Z) :=
  option_map finish (main fuel (initial lines)).

End WithLibraries.
End Fast.

(* ===================================================================== *)
(** ** What a render does, read off the library alone *)
(* ===================================================================== *)

Section RenderOutcome.
Context `{Libraries}.

(** The library calls a render of [(html, css)] makes, and what the last of
    them gives: the PDF bytes, or the message of the exception it raised. *)
Definition render_outcome (html css : json) : (bytes + string) * list event :=
  match HTML html "." with
  | inr msg => (inr msg, [LibHTML html "."])
  | inl doc =>
      if truthy css
      then match CSS css FontConfiguration_new with
           | inr msg => (inr msg, [LibHTML html "."; LibCSS css])
           | inl sheet =>
               (write_pdf doc [sheet] FontConfiguration_new false,
                [LibHTML html "."; LibCSS css; LibWritePdf])
           end
      else (write_pdf doc [] FontConfiguration_new false,
            [LibHTML html "."; LibWritePdf])
  end.

Definition rendered (html css : json) : bytes + string := fst (render_outcome html css).

Definition render_trace (html css : json) : list event := snd (render_outcome html css).

(** The three parameters [main] extracts from a parsed request. *)
Definition html_of (d : list (string * json)) : json := dict_get "html" (JStr "") d.
Definition css_of (d : list (string * json)) : json := dict_get "css" JNull d.
Definition request_id_of (d : list (string * json)) : json :=
  dict_get "request_id" (JStr "unknown") d.


Definition is_dict (v : json) : bool :=
  match v with
  | JObj _ => true
  | _ => false
  end.

(** The failures of the fast bridge on a line it has read, other than a JSON
    decode error: the exception the generic handler receives and the library
    calls made before it. *)
Inductive fast_failure (line : string) : exn -> list event -> Prop :=
| FastNotADict v :
    json_loads (strip line) = inl v ->
    is_dict v = false ->
    fast_failure line (no_attribute v "get") []
| FastEmptyHtml d :
    json_loads (strip line) = inl (JObj d) ->
    truthy (html_of d) = false ->
    fast_failure line (ValueError "HTML content is required") []
| FastRenderException d msg :
    json_loads (strip line) = inl (JObj d) ->
    truthy (html_of d) = true ->
    rendered (html_of d) (css_of d) = inr msg ->
    fast_failure line (PlainException ("PDF generation failed: " ++ msg))
                 (render_trace (html_of d) (css_of d)).

(** A well-formed request: a JSON object with a non-empty [html] text whose
    render gives [pdf]. *)
Definition well_formed (line : string) (d : list (string * json)) (pdf : bytes) : Prop :=
  line <> "" /\
  json_loads (strip line) = inl (JObj d) /\
  (exists h, lookup "html" d = Some (JStr h) /\ h <> "") /\
  rendered (html_of d) (css_of d) = inl pdf.

(** What the fast bridge does for a well-formed request. *)
Definition served (line : string) (d : list (string * json)) (pdf : bytes) : list event :=
  (Readline line :: render_trace (html_of d) (css_of d) ++ [StdoutBytes pdf; StdoutFlush])%list.

(** What [generate_pdf_secure] and [generate_pdf_fast] make of the outcome of
    a render: the bytes, or the exception they raise in place of the
    library's. *)
Definition generate_result (r : bytes + string) : bytes + exn :=
  match r with
  | inl pdf => inl pdf
  | inr msg => inr (PlainException ("PDF generation failed: " ++ msg))
  end.

(** The state after the events [evs]. *)
Definition log (evs : list event) (s : state) : state :=
  mkState (stdin s) (trace s ++ evs) (input_data s).

(** The state after [readline] returned [line], the events [evs], and with
    [bound] as the binding of [input_data]. *)
Definition after_line (line : string) (rest : list string) (evs : list event)
    (bound : option json) (s : state) : state :=
  mkState rest (trace s ++ Readline line :: evs) bound.

(** [print(json.dumps(v))]. *)
Definition printed (v : json) : event := StdoutText (json_dumps v ++ newline).

(** What both bridges do before they parse a line. *)
Definition startup : list event := [StderrText ready_line; StderrFlush].

(** The line the generic handler of the fast bridge writes. *)
Definition reported (e : exn) : list event :=
  [StderrText (json_dumps (Fast.error_payload e) ++ newline); StderrFlush].

End RenderOutcome.

(* ===================================================================== *)
(** ** Summaries of a run, for the properties of whole runs *)
(* ===================================================================== *)

(** The lines [readline] returned, oldest first. *)
Fixpoint lines_read (t : list event) : list string :=
  match t with
  | [] => []
  | Readline line :: t' => line :: lines_read t'
  | _ :: t' => lines_read t'
  end.

(** Whether every character of a text satisfies [p]. *)
Fixpoint all_chars (p : ascii -> bool) (s : string) : bool :=
  match s with
  | EmptyString => true
  | String c s' => p c && all_chars p s'
  end.

(** A character of the base64 alphabet, or the padding. *)
Definition base64_char (c : ascii) : bool :=
  match Base64.decode_char c with
  | Some _ => true
  | None => Ascii.eqb c Base64.pad
  end.

(** A character that UTF-8 encodes as itself. *)
Definition is_ascii (c : ascii) : bool := (N_of_ascii c <? 128)%N.

(** The values Python counts as false, among those [json.loads] returns. *)
Definition falsy_value (v : json) : Prop :=
  v = JNull \/ v = JBool false \/ v = JInt 0 \/
  (exists sign, v = JFloat (S754_zero sign)) \/
  v = JStr "" \/ v = JList [] \/ v = JObj [].

Section RunSummaries.
Context `{Libraries}.

(** The bytes the fast bridge is to write for the lines on its input: the
    PDF of each request in turn, lines that do not decode skipped, up to the
    end of input or the first failure. *)
Fixpoint fast_stdout (lines : list string) : bytes :=
  match lines with
  | [] => []
  | line :: rest =>
      if (line =? "")%string then [] else
      match json_loads (strip line) with
      | inr _ => fast_stdout rest
      | inl (JObj d) =>
          if truthy (html_of d)
          then match rendered (html_of d) (css_of d) with
               | inl pdf => (pdf ++ fast_stdout rest)%list
               | inr _ => []
               end
          else []
      | inl _ => []
      end
  end.

(** A request the secure bridge answers with a PDF. *)
Definition secure_accepts (line : string) : Prop :=
  exists d pdf,
    line <> "" /\
    json_loads (strip line) = inl (JObj d) /\
    truthy (html_of d) = true /\
    rendered (html_of d) (css_of d) = inl pdf.

End RunSummaries.

(* ===================================================================== *)
(** ** A small instance of the libraries, to run the scripts on examples *)
(* ===================================================================== *)

Module Demo.

Definition dquote : ascii := "034"%char.
Definition quoted (s : string) : string := String dquote (s ++ String dquote "").

(** The text up to the next double quote, and what follows that quote. *)
Fixpoint read_text (s : string) : option (string * string) :=
  match s with
  | EmptyString => None
  | String c s' =>
      if Ascii.eqb c dquote then Some (EmptyString, s')
      else match read_text s' with
           | Some (w, r) => Some (String c w, r)
           | None => None
           end
  end.

(** A value: a text without escapes, [null], [true] or [false]. *)
Definition read_value (s : string) : option (json * string) :=
  match s with
  | String c s' =>
      if Ascii.eqb c dquote
      then match read_text s' with
           | Some (w, r) => Some (JStr w, r)
           | None => None
           end
      else if prefix "null" s then Some (JNull, substring 4 (String.length s - 4) s)
      else if prefix "true" s then Some (JBool true, substring 4 (String.length s - 4) s)
      else if prefix "false" s then Some (JBool false, substring 5 (String.length s - 5) s)
      else None
  | EmptyString => None
  end.

(** [d[k] = v] on the items of a dict: a key already present keeps its place. *)
Fixpoint dict_set (k : string) (v : json) (kv : list (string * json)) : list (string * json) :=
  match kv with
  | [] => [(k, v)]
  | (k', v') :: rest =>
      if (k =? k')%string then (k, v) :: rest else (k', v') :: dict_set k v rest
  end.

(** The members of an object, after its opening brace. *)
Fixpoint read_members (fuel : nat) (acc : list (string * json)) (s : string)
  : option (list (string * json)) :=
  match fuel with
  | O => None
  | S fuel' =>
      match lstrip s with
      | String c s1 =>
          if Ascii.eqb c dquote then
            match read_text s1 with
            | Some (k, s2) =>
                match lstrip s2 with
                | String ":" s3 =>
                    match read_value (lstrip s3) with
                    | Some (v, s4) =>
                        match lstrip s4 with
                        | String "," s5 => read_members fuel' (dict_set k v acc) s5
                        | String "}" EmptyString => Some (dict_set k v acc)
                        | _ => None
                        end
                    | None => None
                    end
                | _ => None
                end
            | None => None
            end
          else None
      | EmptyString => None
      end
  end.

Definition loads (s : string) : json + string :=
  match s with
  | String "{" (String "}" EmptyString) => inl (JObj [])
  | String "[" (String "]" EmptyString) => inl (JList [])
  | String "{" s' =>
      match read_members (String.length s') [] s' with
      | Some kv => inl (JObj kv)
      | None => inr "Expecting property name enclosed in double quotes"
      end
  | _ => inr "Expecting value"
  end.

Definition dumps_atom (v : json) : string :=
  match v with
  | JNull => "null"
  | JBool true => "true"
  | JBool false => "false"
  | JInt z => NilZero.string_of_int (Z.to_int z)
  | JFloat _ => "0.0"
  | JStr s => quoted s
  | JList _ => "[]"
  | JObj _ => "{}"
  end.

Fixpoint dumps_items (kv : list (string * json)) : string :=
  match kv with
  | [] => ""
  | [(k, v)] => quoted k ++ ": " ++ dumps_atom v
  | (k, v) :: rest => quoted k ++ ": " ++ dumps_atom v ++ ", " ++ dumps_items rest
  end.

Definition dumps (v : json) : string :=
  match v with
  | JObj kv => "{" ++ dumps_items kv ++ "}"
  | _ => dumps_atom v
  end.

Definition text_source (v : json) : string + string :=
  match v with
  | JStr s => inl s
  | _ => inr "expected str"
  end.

(** A stand-in for WeasyPrint: the document is the text itself. *)
#[export] Instance libraries : Libraries := {|
  html_document := string;
  stylesheet := string;
  font_configuration := unit;
  json_loads := loads;
  json_dumps := dumps;
  format_exc := fun e => "Traceback (most recent call last): " ++ str_exn e;
  FontConfiguration_new := tt;
  HTML := fun v _ => text_source v;
  CSS := fun v _ => text_source v;
  write_pdf := fun doc sheets _ _ =>
    inl (list_byte_of_string ("%PDF-1.7 " ++ doc ++ String.concat "" sheets))
|}.

(** Example requests. *)
Definition field (k v : string) : string := quoted k ++ ": " ++ quoted v.

Definition request_hello : string :=
  "{" ++ field "html" "<p>Hi</p>" ++ ", " ++ field "request_id" "r-1" ++ "}" ++ newline.

Definition request_anonymous : string :=
  "{" ++ field "html" "<p>Hi</p>" ++ "}" ++ newline.

Definition request_styled : string :=
  "{" ++ field "html" "<b>x</b>" ++ ", " ++ field "css" "b{}" ++ "}" ++ newline.

Definition request_empty_html : string :=
  "{" ++ field "html" "" ++ ", " ++ field "request_id" "r-2" ++ "}" ++ newline.

Definition request_no_html : string :=
  "{" ++ field "request_id" "r-3" ++ "}" ++ newline.


Definition request_garbage : string := "not json" ++ newline.

Definition request_list : string := "[]" ++ newline.

(** What the example requests parse to, and what the stand-in renders. *)
Definition hello : list (string * json) :=
  [("html", JStr "<p>Hi</p>"); ("request_id", JStr "r-1")].

Definition anonymous : list (string * json) := [("html", JStr "<p>Hi</p>")].

Definition styled : list (string * json) :=
  [("html", JStr "<b>x</b>"); ("css", JStr "b{}")].

Definition empty_html : list (string * json) :=
  [("html", JStr ""); ("request_id", JStr "r-2")].

Definition no_html : list (string * json) := [("request_id", JStr "r-3")].


Definition hello_pdf : bytes := list_byte_of_string "%PDF-1.7 <p>Hi</p>".

Definition styled_pdf : bytes := list_byte_of_string "%PDF-1.7 <b>x</b>b{}".

(** A fast process that has written its readiness line and has [lines] to read. *)
Definition started (lines : list string) : state := mkState lines startup None.

(** A stream of requests: served, skipped, served, failing, never read. *)
Definition mixed_requests : list string :=
  [request_hello; request_garbage; request_styled; request_no_html; request_hello].

End Demo.

(* ===================================================================== *)
(** * Properties *)
(* ===================================================================== *)

(** ** Base64: decoding what was encoded gives the bytes back *)

Module Base64Facts.
Import Base64.

Local Open Scope N_scope.

Lemma lor_shiftl_add (y x k : N) :
  x < 2 ^ k -> N.lor (N.shiftl y k) x = y * 2 ^ k + x.
Proof.
  intros Hx.
  assert (Hdisj : N.land (N.shiftl y k) x = 0).
  { apply N.bits_inj. intros i. rewrite N.land_spec, N.bits_0.
    destruct (N.lt_ge_cases i k) as [Hlow | Hhigh].
    - rewrite N.shiftl_spec_low by exact Hlow. reflexivity.
    - destruct (N.eq_dec x 0) as [-> | Hnz].
      + rewrite N.bits_0. apply andb_false_r.
      + rewrite (N.bits_above_log2 x i), andb_false_r; [reflexivity|].
        apply N.log2_lt_pow2; [lia|].
        apply N.lt_le_trans with (2 ^ k); [exact Hx|].
        apply N.pow_le_mono_r; lia. }
  rewrite <- N.lxor_lor, <- N.add_nocarry_lxor by exact Hdisj.
  rewrite N.shiftl_mul_pow2. reflexivity.
Qed.

Lemma group24_arith (a b c : N) :
  a < 256 -> b < 256 -> c < 256 ->
  group24 a b c = a * 65536 + b * 256 + c.
Proof.
  intros Ha Hb Hc. unfold group24.
  rewrite (lor_shiftl_add b c 8) by (change (2 ^ 8) with 256; lia).
  rewrite lor_shiftl_add by (change (2 ^ 8) with 256; change (2 ^ 16) with 65536; lia).
  change (2 ^ 8) with 256. change (2 ^ 16) with 65536. lia.
Qed.

Lemma sextet_arith (n i : N) : sextet n i = (n / 2 ^ i) mod 64.
Proof.
  unfold sextet. change 63 with (N.ones 6).
  rewrite N.land_ones, N.shiftr_div_pow2. reflexivity.
Qed.

Lemma octet_arith (n i : N) : octet n i = (n / 2 ^ i) mod 256.
Proof.
  unfold octet. change 255 with (N.ones 8).
  rewrite N.land_ones, N.shiftr_div_pow2. reflexivity.
Qed.

Lemma sextet_bound (n i : N) : sextet n i < 64.
Proof. rewrite sextet_arith. apply N.mod_lt. discriminate. Qed.

Lemma ungroup24_arith (s0 s1 s2 s3 : N) :
  s0 < 64 -> s1 < 64 -> s2 < 64 -> s3 < 64 ->
  ungroup24 s0 s1 s2 s3 = s0 * 262144 + s1 * 4096 + s2 * 64 + s3.
Proof.
  intros H0 H1 H2 H3. unfold ungroup24.
  rewrite (lor_shiftl_add s2 s3 6) by (change (2 ^ 6) with 64; lia).
  rewrite (lor_shiftl_add s1 _ 12)
    by (change (2 ^ 6) with 64; change (2 ^ 12) with 4096; lia).
  rewrite lor_shiftl_add
    by (change (2 ^ 6) with 64; change (2 ^ 12) with 4096;
        change (2 ^ 18) with 262144; lia).
  change (2 ^ 6) with 64. change (2 ^ 12) with 4096. change (2 ^ 18) with 262144.
  lia.
Qed.

(** The four 6-bit values of a 24-bit group put together give the group. *)
Lemma ungroup24_sextets (n : N) :
  n < 16777216 ->
  ungroup24 (sextet n 18) (sextet n 12) (sextet n 6) (sextet n 0) = n.
Proof.
  intros Hn.
  rewrite ungroup24_arith by apply sextet_bound.
  rewrite !sextet_arith.
  change (2 ^ 18) with 262144. change (2 ^ 12) with 4096.
  change (2 ^ 6) with 64. change (2 ^ 0) with 1.
  rewrite N.div_1_r.
  pose proof (N.div_mod n 64 ltac:(discriminate)) as E0.
  pose proof (N.div_mod (n / 64) 64 ltac:(discriminate)) as E1.
  pose proof (N.div_mod (n / 4096) 64 ltac:(discriminate)) as E2.
  rewrite N.Div0.div_div in E1. change (64 * 64) with 4096 in E1.
  rewrite N.Div0.div_div in E2. change (4096 * 64) with 262144 in E2.
  assert (H18 : n / 262144 < 64)
    by (apply N.Div0.div_lt_upper_bound; exact Hn).
  rewrite (N.mod_small (n / 262144) 64) by exact H18.
  lia.
Qed.

Lemma div_mod_digit (q r b : N) : r < b -> (q * b + r) / b = q /\ (q * b + r) mod b = r.
Proof.
  intros Hr. split.
  - symmetry. apply N.div_unique with r; [exact Hr | lia].
  - symmetry. apply N.mod_unique with q; [exact Hr | lia].
Qed.

Lemma group24_bound (a b c : byte) :
  group24 (to_N a) (to_N b) (to_N c) < 16777216.
Proof.
  pose proof (to_N_bounded a). pose proof (to_N_bounded b).
  pose proof (to_N_bounded c).
  rewrite group24_arith by lia. lia.
Qed.

Lemma octets_of_group (a b c : N) :
  a < 256 -> b < 256 -> c < 256 ->
  let n := group24 a b c in
  octet n 16 = a /\ octet n 8 = b /\ octet n 0 = c.
Proof.
  intros Ha Hb Hc. cbv zeta. rewrite !octet_arith, group24_arith by assumption.
  change (2 ^ 16) with 65536. change (2 ^ 8) with 256. change (2 ^ 0) with 1.
  rewrite N.div_1_r. repeat split.
  - replace (a * 65536 + b * 256 + c) with (a * 65536 + (b * 256 + c)) by lia.
    rewrite (proj1 (div_mod_digit a (b * 256 + c) 65536 ltac:(lia))).
    apply N.mod_small. exact Ha.
  - replace (a * 65536 + b * 256 + c) with ((a * 256 + b) * 256 + c) by lia.
    rewrite (proj1 (div_mod_digit (a * 256 + b) c 256 Hc)).
    apply (proj2 (div_mod_digit a b 256 Hb)).
  - replace (a * 65536 + b * 256 + c) with ((a * 256 + b) * 256 + c) by lia.
    apply (proj2 (div_mod_digit (a * 256 + b) c 256 Hc)).
Qed.

Lemma byte_at_group24 (a b c : byte) :
  let n := group24 (to_N a) (to_N b) (to_N c) in
  byte_at n 16 = Some a /\ byte_at n 8 = Some b /\ byte_at n 0 = Some c.
Proof.
  pose proof (to_N_bounded a). pose proof (to_N_bounded b).
  pose proof (to_N_bounded c).
  cbv zeta. unfold byte_at.
  destruct (octets_of_group (to_N a) (to_N b) (to_N c)) as (-> & -> & ->);
    try lia.
  rewrite !of_to_N. auto.
Qed.

Lemma sextet0_pad1 (a b : byte) : sextet (group24 (to_N a) (to_N b) 0) 0 = 0.
Proof.
  pose proof (to_N_bounded a). pose proof (to_N_bounded b).
  rewrite sextet_arith, group24_arith by lia.
  change (2 ^ 0) with 1. rewrite N.div_1_r.
  replace (to_N a * 65536 + to_N b * 256 + 0)
    with ((to_N a * 1024 + to_N b * 4) * 64 + 0) by lia.
  apply (proj2 (div_mod_digit _ 0 64 ltac:(lia))).
Qed.

Lemma sextet0_pad2 (a : byte) :
  sextet (group24 (to_N a) 0 0) 6 = 0 /\ sextet (group24 (to_N a) 0 0) 0 = 0.
Proof.
  pose proof (to_N_bounded a).
  rewrite !sextet_arith, group24_arith by lia.
  change (2 ^ 0) with 1. change (2 ^ 6) with 64. rewrite N.div_1_r.
  replace (to_N a * 65536 + 0 * 256 + 0) with ((to_N a * 1024) * 64 + 0) by lia.
  destruct (div_mod_digit (to_N a * 1024) 0 64 ltac:(lia)) as [-> ->].
  split; [|reflexivity].
  replace (to_N a * 1024) with ((to_N a * 16) * 64 + 0) by lia.
  apply (proj2 (div_mod_digit _ 0 64 ltac:(lia))).
Qed.

Lemma char_ok_all (n : N) : n < 64 -> char_ok n = true.
Proof.
  intros Hn.
  assert (Hall : forallb char_ok (map N.of_nat (seq 0 64)) = true)
    by (vm_compute; reflexivity).
  rewrite forallb_forall in Hall. apply Hall.
  apply in_map_iff. exists (N.to_nat n). split; [lia|].
  apply in_seq. lia.
Qed.

Lemma decode_encode_char (n : N) : n < 64 -> decode_char (encode_char n) = Some n.
Proof.
  intros Hn. pose proof (char_ok_all n Hn) as Hok. unfold char_ok in Hok.
  destruct (decode_char (encode_char n)) as [m|]; [|discriminate].
  apply andb_prop in Hok. destruct Hok as [Hm _].
  apply N.eqb_eq in Hm. congruence.
Qed.

Lemma encode_char_not_pad (n : N) : n < 64 -> Ascii.eqb (encode_char n) pad = false.
Proof.
  intros Hn. pose proof (char_ok_all n Hn) as Hok. unfold char_ok in Hok.
  destruct (decode_char (encode_char n)); [|discriminate].
  apply andb_prop in Hok. destruct Hok as [_ Hp].
  apply negb_true_iff in Hp. exact Hp.
Qed.

Lemma decode_chr6 (n i : N) : decode_char (chr6 n i) = Some (sextet n i).
Proof. apply decode_encode_char, sextet_bound. Qed.

Lemma chr6_not_pad (n i : N) : Ascii.eqb (chr6 n i) pad = false.
Proof. apply encode_char_not_pad, sextet_bound. Qed.

Lemma decode_full_group (a b c : byte) :
  let n := group24 (to_N a) (to_N b) (to_N c) in
  decode_full (chr6 n 18) (chr6 n 12) (chr6 n 6) (chr6 n 0) = Some [a; b; c].
Proof.
  cbv zeta. unfold decode_full. rewrite !decode_chr6.
  rewrite ungroup24_sextets by apply group24_bound.
  destruct (byte_at_group24 a b c) as (-> & -> & ->). reflexivity.
Qed.

Lemma decode_pad1_group (a b : byte) :
  let n := group24 (to_N a) (to_N b) 0 in
  decode_pad1 (chr6 n 18) (chr6 n 12) (chr6 n 6) = Some [a; b].
Proof.
  cbv zeta. unfold decode_pad1. rewrite !decode_chr6.
  pose proof (ungroup24_sextets _ (group24_bound a b x00)) as E.
  pose proof (byte_at_group24 a b x00) as (Ha & Hb & _).
  cbv zeta in Ha, Hb. change (to_N x00) with 0 in E, Ha, Hb.
  rewrite (sextet0_pad1 a b) in E.
  rewrite E, Ha, Hb. reflexivity.
Qed.

Lemma decode_pad2_group (a : byte) :
  let n := group24 (to_N a) 0 0 in
  decode_pad2 (chr6 n 18) (chr6 n 12) = Some [a].
Proof.
  cbv zeta. unfold decode_pad2. rewrite !decode_chr6.
  destruct (sextet0_pad2 a) as [H6 H0].
  pose proof (ungroup24_sextets _ (group24_bound a x00 x00)) as E.
  pose proof (byte_at_group24 a x00 x00) as (Ha & _ & _).
  cbv zeta in Ha. change (to_N x00) with 0 in E, Ha.
  rewrite H6, H0 in E.
  rewrite E, Ha. reflexivity.
Qed.

(** Induction on a list of bytes three at a time, as the encoder reads it. *)
Lemma bytes_ind3 (P : bytes -> Prop) :
  P [] ->
  (forall a, P [a]) ->
  (forall a b, P [a; b]) ->
  (forall a b c rest, P rest -> P (a :: b :: c :: rest)) ->
  forall bs, P bs.
Proof.
  intros H0 H1 H2 H3.
  assert (Hall : forall bs, P bs /\ (forall a, P (a :: bs)) /\ (forall a b, P (a :: b :: bs))).
  { induction bs as [|x bs (IH0 & IH1 & IH2)].
    - auto.
    - repeat split; auto. }
  intros bs. apply Hall.
Qed.

Lemma b64encode_empty (bs : bytes) : b64encode bs = EmptyString -> bs = [].
Proof.
  destruct bs as [|a [|b [|c rest]]]; simpl; intros Heq; [reflexivity | discriminate..].
Qed.

(** [b64decode] inverts [b64encode]. *)
Lemma b64decode_b64encode (bs : bytes) : b64decode (b64encode bs) = Some bs.
Proof.
  induction bs as [| a | a b | a b c rest IH] using bytes_ind3.
  - reflexivity.
  - cbn [b64encode b64decode]. rewrite Ascii.eqb_refl. apply decode_pad2_group.
  - cbn [b64encode b64decode]. rewrite Ascii.eqb_refl, chr6_not_pad.
    apply decode_pad1_group.
  - cbn [b64encode b64decode].
    destruct (b64encode rest) as [|c0 tl] eqn:Erest.
    + apply b64encode_empty in Erest. subst rest.
      rewrite chr6_not_pad. apply decode_full_group.
    + rewrite decode_full_group. rewrite IH. reflexivity.
Qed.

(** The encoding has four characters for every three bytes, rounded up. *)
Lemma b64encode_length (bs : bytes) :
  String.length (b64encode bs) = (4 * ((List.length bs + 2) / 3))%nat.
Proof.
  induction bs as [| a | a b | a b c rest IH] using bytes_ind3;
    try reflexivity.
  cbn [b64encode String.length List.length]. rewrite IH.
  replace (S (S (S (List.length rest))) + 2)%nat
    with (1 * 3 + (List.length rest + 2))%nat by lia.
  rewrite Nat.div_add_l by discriminate. lia.
Qed.

End Base64Facts.

(** ** The bridges *)

Section BridgeFacts.
Context `{Libraries}.

Local Open Scope list_scope.

(** *** Small facts *)

Lemma strip_blank (s : string) : blank s = true -> strip s = EmptyString.
Proof.
  unfold strip. induction s as [|c s IH]; cbn [blank lstrip]; intros Hb.
  - reflexivity.
  - apply andb_prop in Hb. destruct Hb as [Hc Hs]. rewrite Hc. auto.
Qed.

Lemma truthy_text (h : string) : h <> EmptyString -> truthy (JStr h) = true.
Proof.
  intros Hh. cbn [truthy]. apply String.eqb_neq in Hh. rewrite Hh. reflexivity.
Qed.

Lemma html_of_lookup (d : list (string * json)) (v : json) :
  lookup "html" d = Some v -> html_of d = v.
Proof. unfold html_of, dict_get. intros ->. reflexivity. Qed.

Lemma html_of_missing (d : list (string * json)) :
  lookup "html" d = None -> html_of d = JStr "".
Proof. unfold html_of, dict_get. intros ->. reflexivity. Qed.

Lemma well_formed_truthy line d pdf :
  well_formed line d pdf -> truthy (html_of d) = true.
Proof.
  intros (_ & _ & (h & Hl & Hh) & _).
  rewrite (html_of_lookup _ _ Hl). apply truthy_text, Hh.
Qed.

(** A render writes nothing on either stream. *)
Lemma render_trace_calls_only html css :
  stdout_writes (render_trace html css) = [] /\
  stderr_writes (render_trace html css) = [] /\
  stdout_bytes (render_trace html css) = [] /\
  render_calls (render_trace html css) = render_trace html css.
Proof.
  unfold render_trace, render_outcome.
  destruct (HTML html ".") as [doc|m]; [|cbn; auto].
  destruct (truthy css); [|cbn; auto].
  destruct (CSS css FontConfiguration_new) as [sheet|m]; cbn; auto.
Qed.

Lemma stdout_bytes_app (t u : list event) :
  stdout_bytes (t ++ u) = stdout_bytes t ++ stdout_bytes u.
Proof.
  induction t as [|ev t IH]; [reflexivity|].
  destruct ev; cbn [stdout_bytes app]; rewrite IH; try reflexivity.
  apply app_assoc.
Qed.

(** *** The render functions *)

Lemma generate_pdf_secure_run html css s :
  Secure.generate_pdf_secure html css s =
  (generate_result (rendered html css), log (render_trace html css) s).
Proof.
  unfold Secure.generate_pdf_secure, rendered, render_trace, render_outcome,
    Secure.FONT_CONFIG, try_clauses, bind, lib_call, emit, ret, raise, log,
    generate_result.
  destruct (HTML html ".") as [doc|m]; cbn; [|reflexivity].
  destruct (truthy css); cbn.
  - destruct (CSS css FontConfiguration_new) as [sheet|m]; cbn.
    + destruct (write_pdf doc [sheet] FontConfiguration_new false); cbn;
        rewrite <- !app_assoc; reflexivity.
    + rewrite <- !app_assoc. reflexivity.
  - destruct (write_pdf doc [] FontConfiguration_new false); cbn;
      rewrite <- !app_assoc; reflexivity.
Qed.

Lemma generate_pdf_fast_run html css s :
  Fast.generate_pdf_fast html css s =
  (generate_result (rendered html css), log (render_trace html css) s).
Proof.
  unfold Fast.generate_pdf_fast, rendered, render_trace, render_outcome,
    Fast.FONT_CONFIG, try_clauses, bind, lib_call, emit, ret, raise, log,
    generate_result.
  destruct (HTML html ".") as [doc|m]; cbn; [|reflexivity].
  destruct (truthy css); cbn.
  - destruct (CSS css FontConfiguration_new) as [sheet|m]; cbn.
    + destruct (write_pdf doc [sheet] FontConfiguration_new false); cbn;
        rewrite <- !app_assoc; reflexivity.
    + rewrite <- !app_assoc. reflexivity.
  - destruct (write_pdf doc [] FontConfiguration_new false); cbn;
      rewrite <- !app_assoc; reflexivity.
Qed.

(** *** The secure bridge, path by path *)

Ltac secure_start Hne :=
  unfold Secure.run, Secure.main, try_clauses, bind;
  cbn [emit readline initial stdin trace input_data app];
  try (apply String.eqb_neq in Hne; rewrite Hne);
  unfold loads.

Lemma secure_run_eof : Secure.run [] = (startup ++ [Readline ""], 1).
Proof. reflexivity. Qed.

Lemma secure_run_parse_error line rest msg :
  line <> EmptyString ->
  json_loads (strip line) = inr msg ->
  Secure.run (line :: rest) =
  (startup ++ [Readline line; printed (Secure.error_response (JStr "unknown") msg)], 1).
Proof.
  intros Hne Hloads. secure_start Hne. rewrite Hloads. reflexivity.
Qed.

Lemma secure_run_not_dict line rest v :
  line <> EmptyString ->
  json_loads (strip line) = inl v ->
  is_dict v = false ->
  Secure.run (line :: rest) =
  (startup ++ [Readline line; StderrTraceback (no_attribute v "get")], 1).
Proof.
  intros Hne Hloads Hv. secure_start Hne. rewrite Hloads.
  destruct v; try discriminate Hv; reflexivity.
Qed.

Lemma secure_run_empty_html line rest d :
  line <> EmptyString ->
  json_loads (strip line) = inl (JObj d) ->
  truthy (html_of d) = false ->
  Secure.run (line :: rest) =
  (startup ++ [Readline line;
               printed (Secure.error_response (request_id_of d) "HTML content is required")],
   1).
Proof.
  intros Hne Hloads Hhtml. secure_start Hne. rewrite Hloads.
  cbn [ret sys_exit raise assign_input_data py_get stdin trace input_data].
  fold (html_of d). rewrite Hhtml. reflexivity.
Qed.

Lemma secure_run_render_error line rest d msg :
  line <> EmptyString ->
  json_loads (strip line) = inl (JObj d) ->
  truthy (html_of d) = true ->
  rendered (html_of d) (css_of d) = inr msg ->
  Secure.run (line :: rest) =
  (startup ++ Readline line :: render_trace (html_of d) (css_of d) ++
   [printed (Secure.error_response (request_id_of d)
               ("PDF generation failed: " ++ msg))], 1).
Proof.
  intros Hne Hloads Hhtml Hrender. secure_start Hne. rewrite Hloads.
  cbn [ret sys_exit raise assign_input_data py_get stdin trace input_data].
  fold (html_of d). fold (css_of d). rewrite Hhtml. cbn [negb ret].
  rewrite generate_pdf_secure_run, Hrender. reflexivity.
Qed.

Lemma secure_run_success line rest d pdf :
  line <> EmptyString ->
  json_loads (strip line) = inl (JObj d) ->
  truthy (html_of d) = true ->
  rendered (html_of d) (css_of d) = inl pdf ->
  Secure.run (line :: rest) =
  (startup ++ Readline line :: render_trace (html_of d) (css_of d) ++
   [printed (Secure.success_response (request_id_of d) pdf)], 0).
Proof.
  intros Hne Hloads Hhtml Hrender. secure_start Hne. rewrite Hloads.
  cbn [ret sys_exit raise assign_input_data py_get stdin trace input_data].
  fold (html_of d). fold (css_of d). rewrite Hhtml. cbn [negb ret].
  rewrite generate_pdf_secure_run, Hrender. reflexivity.
Qed.

Lemma secure_run_empty_line rest :
  Secure.run (EmptyString :: rest) = (startup ++ [Readline ""], 1).
Proof. reflexivity. Qed.

Lemma stdout_writes_app (t u : list event) :
  stdout_writes (t ++ u) = stdout_writes t ++ stdout_writes u.
Proof. apply filter_app. Qed.

Lemma render_calls_app (t u : list event) :
  render_calls (t ++ u) = render_calls t ++ render_calls u.
Proof. apply filter_app. Qed.

(** What a request that was read and rendered leaves on standard output:
    the one line printed after the render. *)
Lemma stdout_writes_response line html css v :
  stdout_writes (startup ++ Readline line :: render_trace html css ++ [printed v]) =
  [printed v].
Proof.
  destruct (render_trace_calls_only html css) as (Hout & _).
  rewrite stdout_writes_app. cbn [startup stdout_writes filter is_stdout app].
  fold (stdout_writes (render_trace html css ++ [printed v])).
  rewrite stdout_writes_app, Hout. reflexivity.
Qed.

(** A JSON value that is not an object: [main] raises [AttributeError], its
    handler raises it again at [input_data.get], and nothing is printed. *)
Lemma secure_not_dict_no_envelope line rest v :
  line <> EmptyString ->
  json_loads (strip line) = inl v ->
  is_dict v = false ->
  snd (Secure.run (line :: rest)) = 1 /\
  stdout_writes (fst (Secure.run (line :: rest))) = [].
Proof.
  intros Hne Hloads Hv.
  rewrite (secure_run_not_dict line rest v Hne Hloads Hv). split; reflexivity.
Qed.

(** *** The secure bridge: the claims *)

(** C1.  In secure mode, a line that parses as a JSON object with a non-empty
    [html] text, and whose render gives the bytes [pdf], makes the process
    print exactly one JSON object, with the fields [success = true],
    [request_id], [pdf_base64] the base64 encoding of [pdf] (decoding it gives
    [pdf] back) and [size] the number of bytes of [pdf], and exit with
    status 0. *)
Theorem secure_success_envelope line rest d h pdf :
  line <> EmptyString ->
  json_loads (strip line) = inl (JObj d) ->
  lookup "html" d = Some (JStr h) ->
  h <> EmptyString ->
  rendered (JStr h) (css_of d) = inl pdf ->
  exists t,
    Secure.run (line :: rest) = (t, 0) /\
    stdout_writes t =
      [StdoutText
         (json_dumps
            (JObj [("success", JBool true);
                   ("request_id", request_id_of d);
                   ("pdf_base64", JStr (Base64.b64encode pdf));
                   ("size", JInt (Z.of_nat (List.length pdf)))]) ++ newline)%string] /\
    Base64.b64decode (Base64.b64encode pdf) = Some pdf.
Proof.
  intros Hne Hloads Hhtml Hh Hrender.
  pose proof (html_of_lookup _ _ Hhtml) as Ehtml.
  assert (Htruthy : truthy (html_of d) = true)
    by (rewrite Ehtml; apply truthy_text, Hh).
  rewrite <- Ehtml in Hrender.
  rewrite (secure_run_success line rest d pdf Hne Hloads Htruthy Hrender).
  eexists. split; [reflexivity|]. split.
  - apply stdout_writes_response.
  - apply Base64Facts.b64decode_b64encode.
Qed.


(** C3.  In secure mode, a request whose [html] field is missing or empty is
    answered by one JSON object with [success = false], the request
    identifier and an error message, and without a [pdf_base64] field; the
    process exits with status 1 and has made no call into the renderer. *)
Theorem secure_empty_html_rejected line rest d :
  line <> EmptyString ->
  json_loads (strip line) = inl (JObj d) ->
  lookup "html" d = None \/ lookup "html" d = Some (JStr "") ->
  exists t fields,
    Secure.run (line :: rest) = (t, 1) /\
    stdout_writes t = [StdoutText (json_dumps (JObj fields) ++ newline)%string] /\
    lookup "success" fields = Some (JBool false) /\
    lookup "request_id" fields = Some (request_id_of d) /\
    (exists msg, lookup "error" fields = Some (JStr msg)) /\
    lookup "pdf_base64" fields = None /\
    render_calls t = [].
Proof.
  intros Hne Hloads Hhtml.
  assert (Hfalsy : truthy (html_of d) = false).
  { destruct Hhtml as [Hnone | Hempty].
    - rewrite (html_of_missing _ Hnone). reflexivity.
    - rewrite (html_of_lookup _ _ Hempty). reflexivity. }
  rewrite (secure_run_empty_html line rest d Hne Hloads Hfalsy).
  eexists. eexists. split; [reflexivity|].
  split; [reflexivity|]. cbn [lookup String.eqb Ascii.eqb Bool.eqb].
  repeat split; try reflexivity. eexists. reflexivity.
Qed.

(** C4.  In secure mode, whenever the line parses as a JSON object, the one
    response printed (success or failure) carries as [request_id] the value of
    the input's [request_id] field when there is one, and ["unknown"] when
    there is none. *)
Theorem secure_request_id_echoed line rest d :
  line <> EmptyString ->
  json_loads (strip line) = inl (JObj d) ->
  exists t code fields,
    Secure.run (line :: rest) = (t, code) /\
    stdout_writes t = [StdoutText (json_dumps (JObj fields) ++ newline)%string] /\
    (forall v, lookup "request_id" d = Some v ->
               lookup "request_id" fields = Some v) /\
    (lookup "request_id" d = None ->
     lookup "request_id" fields = Some (JStr "unknown")).
Proof.
  intros Hne Hloads.
  assert (Hrid : (forall v, lookup "request_id" d = Some v -> request_id_of d = v) /\
                 (lookup "request_id" d = None -> request_id_of d = JStr "unknown")).
  { unfold request_id_of, dict_get. split.
    - intros v ->. reflexivity.
    - intros ->. reflexivity. }
  destruct Hrid as [Hsome Hnone].
  destruct (truthy (html_of d)) eqn:Hhtml.
  - destruct (rendered (html_of d) (css_of d)) as [pdf | m] eqn:Hrender.
    + rewrite (secure_run_success line rest d pdf Hne Hloads Hhtml Hrender).
      eexists. eexists. eexists. split; [reflexivity|].
      split; [apply stdout_writes_response|].
      cbn [lookup String.eqb Ascii.eqb Bool.eqb].
      split; [intros v Hv | intros Hv]; f_equal; auto.
    + rewrite (secure_run_render_error line rest d m Hne Hloads Hhtml Hrender).
      eexists. eexists. eexists. split; [reflexivity|].
      split; [apply stdout_writes_response|].
      cbn [lookup String.eqb Ascii.eqb Bool.eqb].
      split; [intros v Hv | intros Hv]; f_equal; auto.
  - rewrite (secure_run_empty_html line rest d Hne Hloads Hhtml).
    eexists. eexists. eexists. split; [reflexivity|].
    split; [reflexivity|].
    cbn [lookup String.eqb Ascii.eqb Bool.eqb].
    split; [intros v Hv | intros Hv]; f_equal; auto.
Qed.

(** C10.  In secure mode, when standard input is at its end before any line,
    [main] ends by the [SystemExit(1)] of [sys.exit(1)], which the handler of
    [Exception] does not receive: the process exits with status 1 and has
    printed nothing. *)
Theorem secure_eof_exits_without_envelope :
  fst (Secure.main (initial [])) = inr (SystemExit 1) /\
  Secure.run [] = ([StderrText ready_line; StderrFlush; Readline ""], 1) /\
  stdout_writes (fst (Secure.run [])) = [].
Proof. repeat split; reflexivity. Qed.

(** *** The fast bridge: one pass through the loop, case by case *)

Ltac fast_start Hs :=
  unfold Fast.iteration, try_clauses, bind, readline; rewrite Hs;
  cbn [select_clause isinstance class_of issubclass].

Lemma iteration_eof s :
  stdin s = [] ->
  Fast.iteration s = (inl Fast.Break, after_line "" [] [] (input_data s) s).
Proof. intros Hs. fast_start Hs. reflexivity. Qed.

Lemma iteration_empty_line s rest :
  stdin s = EmptyString :: rest ->
  Fast.iteration s = (inl Fast.Break, after_line "" rest [] (input_data s) s).
Proof. intros Hs. fast_start Hs. reflexivity. Qed.

Lemma iteration_decode_error s line rest msg :
  stdin s = line :: rest ->
  line <> EmptyString ->
  json_loads (strip line) = inr msg ->
  Fast.iteration s = (inl Fast.Next, after_line line rest [] (input_data s) s).
Proof.
  intros Hs Hne Hloads. fast_start Hs.
  apply String.eqb_neq in Hne. rewrite Hne.
  unfold loads. rewrite Hloads. reflexivity.
Qed.

Lemma iteration_not_dict s line rest v :
  stdin s = line :: rest ->
  line <> EmptyString ->
  json_loads (strip line) = inl v ->
  is_dict v = false ->
  Fast.iteration s =
  (inl Fast.Break,
   after_line line rest (reported (no_attribute v "get")) (Some v) s).
Proof.
  intros Hs Hne Hloads Hv. fast_start Hs.
  apply String.eqb_neq in Hne. rewrite Hne.
  unfold loads. rewrite Hloads.
  destruct v; try discriminate Hv; cbn; unfold after_line;
    rewrite <- !app_assoc; reflexivity.
Qed.

Lemma iteration_empty_html s line rest d :
  stdin s = line :: rest ->
  line <> EmptyString ->
  json_loads (strip line) = inl (JObj d) ->
  truthy (html_of d) = false ->
  Fast.iteration s =
  (inl Fast.Break,
   after_line line rest (reported (ValueError "HTML content is required"))
     (Some (JObj d)) s).
Proof.
  intros Hs Hne Hloads Hhtml. fast_start Hs.
  apply String.eqb_neq in Hne. rewrite Hne.
  unfold loads. rewrite Hloads.
  cbn [ret raise assign_input_data py_get stdin trace input_data].
  fold (html_of d). rewrite Hhtml. cbn. unfold after_line.
  rewrite <- !app_assoc. reflexivity.
Qed.

Lemma iteration_render_error s line rest d msg :
  stdin s = line :: rest ->
  line <> EmptyString ->
  json_loads (strip line) = inl (JObj d) ->
  truthy (html_of d) = true ->
  rendered (html_of d) (css_of d) = inr msg ->
  Fast.iteration s =
  (inl Fast.Break,
   after_line line rest
     (render_trace (html_of d) (css_of d) ++
      reported (PlainException ("PDF generation failed: " ++ msg)))
     (Some (JObj d)) s).
Proof.
  intros Hs Hne Hloads Hhtml Hrender. fast_start Hs.
  apply String.eqb_neq in Hne. rewrite Hne.
  unfold loads. rewrite Hloads.
  cbn [ret raise assign_input_data py_get stdin trace input_data].
  fold (html_of d). fold (css_of d). rewrite Hhtml. cbn [negb ret].
  rewrite generate_pdf_fast_run, Hrender. cbn. unfold after_line.
  rewrite <- !app_assoc. reflexivity.
Qed.

Lemma iteration_served s line rest d pdf :
  stdin s = line :: rest ->
  line <> EmptyString ->
  json_loads (strip line) = inl (JObj d) ->
  truthy (html_of d) = true ->
  rendered (html_of d) (css_of d) = inl pdf ->
  Fast.iteration s =
  (inl Fast.Next,
   after_line line rest
     (render_trace (html_of d) (css_of d) ++ [StdoutBytes pdf; StdoutFlush])
     (Some (JObj d)) s).
Proof.
  intros Hs Hne Hloads Hhtml Hrender. fast_start Hs.
  apply String.eqb_neq in Hne. rewrite Hne.
  unfold loads. rewrite Hloads.
  cbn [ret raise assign_input_data py_get stdin trace input_data].
  fold (html_of d). fold (css_of d). rewrite Hhtml. cbn [negb ret].
  rewrite generate_pdf_fast_run, Hrender. cbn. unfold after_line.
  rewrite <- !app_assoc. reflexivity.
Qed.

Lemma iteration_failure s line rest e evs :
  stdin s = line :: rest ->
  line <> EmptyString ->
  fast_failure line e evs ->
  exists bound,
    Fast.iteration s =
    (inl Fast.Break, after_line line rest (evs ++ reported e) bound s).
Proof.
  intros Hs Hne Hfail.
  destruct Hfail as [v Hloads Hv | d Hloads Hhtml | d m Hloads Hhtml Hrender];
    eexists.
  - apply (iteration_not_dict s line rest v); assumption.
  - apply (iteration_empty_html s line rest d); assumption.
  - apply (iteration_render_error s line rest d m); assumption.
Qed.

(** One pass never raises, only adds to the trace, and reads a line whenever
    it asks for another pass. *)
Lemma iteration_cases s :
  exists c s' evs,
    Fast.iteration s = (inl c, s') /\
    trace s' = trace s ++ evs /\
    (c = Fast.Next -> exists line, stdin s = line :: stdin s').
Proof.
  destruct (stdin s) as [|line rest] eqn:Hs.
  { do 3 eexists. rewrite (iteration_eof s Hs).
    split; [reflexivity|]. split; [reflexivity | discriminate]. }
  destruct (string_dec line EmptyString) as [-> | Hne].
  { do 3 eexists. rewrite (iteration_empty_line s rest Hs).
    split; [reflexivity|]. split; [reflexivity | discriminate]. }
  destruct (json_loads (strip line)) as [v | m] eqn:Hloads.
  2:{ do 3 eexists. rewrite (iteration_decode_error s line rest m Hs Hne Hloads).
      split; [reflexivity|]. split; [reflexivity|]. intros _. exists line. reflexivity. }
  destruct (is_dict v) eqn:Hv.
  2:{ do 3 eexists. rewrite (iteration_not_dict s line rest v Hs Hne Hloads Hv).
      split; [reflexivity|]. split; [reflexivity | discriminate]. }
  destruct v as [ | | | | | | d]; try discriminate Hv.
  destruct (truthy (html_of d)) eqn:Hhtml.
  2:{ do 3 eexists. rewrite (iteration_empty_html s line rest d Hs Hne Hloads Hhtml).
      split; [reflexivity|]. split; [reflexivity | discriminate]. }
  destruct (rendered (html_of d) (css_of d)) as [pdf | m] eqn:Hrender.
  - do 3 eexists.
    rewrite (iteration_served s line rest d pdf Hs Hne Hloads Hhtml Hrender).
    split; [reflexivity|]. split; [reflexivity|]. intros _. exists line. reflexivity.
  - do 3 eexists.
    rewrite (iteration_render_error s line rest d m Hs Hne Hloads Hhtml Hrender).
    split; [reflexivity|]. split; [reflexivity | discriminate].
Qed.

(** *** The fast bridge: the loop *)

Lemma serve_next fuel s s' :
  Fast.iteration s = (inl Fast.Next, s') ->
  Fast.serve (S fuel) s = Fast.serve fuel s'.
Proof. intros Hit. unfold Fast.serve. cbn [Fast.while_true]. rewrite Hit. reflexivity. Qed.

Lemma serve_break fuel s s' :
  Fast.iteration s = (inl Fast.Break, s') ->
  Fast.serve (S fuel) s = Some (inl tt, s').
Proof. intros Hit. unfold Fast.serve. cbn [Fast.while_true]. rewrite Hit. reflexivity. Qed.

(** The loop ends: with more fuel than lines left to read it returns, without
    an exception, and has only added to the trace. *)
Lemma serve_total fuel s :
  (List.length (stdin s) < fuel)%nat ->
  exists s' evs,
    Fast.serve fuel s = Some (inl tt, s') /\ trace s' = trace s ++ evs.
Proof.
  revert s. induction fuel as [|fuel IH]; intros s Hfuel; [lia|].
  destruct (iteration_cases s) as (c & s1 & evs & Hit & Htrace & Hread).
  destruct c.
  - destruct (Hread eq_refl) as [line Hs].
    rewrite (serve_next fuel s s1 Hit).
    destruct (IH s1) as (s' & evs' & Hserve & Htrace').
    { rewrite Hs in Hfuel. cbn [List.length] in Hfuel. lia. }
    exists s', (evs ++ evs'). split; [exact Hserve|].
    rewrite Htrace', Htrace, app_assoc. reflexivity.
  - rewrite (serve_break fuel s s1 Hit). exists s1, evs. auto.
Qed.

(** More fuel does not change what the loop returns. *)
Lemma serve_fuel_irrelevant fuel fuel' s r :
  Fast.serve fuel s = Some r ->
  (fuel <= fuel')%nat ->
  Fast.serve fuel' s = Some r.
Proof.
  revert fuel' s. induction fuel as [|fuel IH]; intros fuel' s Hserve Hle.
  - discriminate Hserve.
  - destruct fuel' as [|fuel']; [lia|].
    unfold Fast.serve in *. cbn [Fast.while_true] in *.
    destruct (Fast.iteration s) as [[[|]|e] s1]; try exact Hserve.
    apply IH; [exact Hserve | lia].
Qed.

(** The fast bridge always ends with status 0, also after a failure: [main]
    returns once the loop is left. *)
Lemma fast_run_total fuel lines :
  (List.length lines < fuel)%nat ->
  exists evs, Fast.run fuel lines = Some (startup ++ evs, 0).
Proof.
  intros Hfuel. unfold Fast.run, Fast.main, bind, emit. cbn [initial stdin trace input_data app].
  destruct (serve_total fuel (mkState lines startup None) Hfuel)
    as (s' & evs & Hserve & Htrace).
  fold startup. rewrite Hserve. cbn [option_map finish].
  exists evs. rewrite Htrace. reflexivity.
Qed.

(** [main] is the loop, started after the readiness line. *)
Lemma fast_run_serve fuel lines :
  Fast.run fuel lines =
  option_map finish (Fast.serve fuel (mkState lines startup None)).
Proof. reflexivity. Qed.

Lemma well_formed_served s line rest d pdf :
  stdin s = line :: rest ->
  well_formed line d pdf ->
  Fast.iteration s =
  (inl Fast.Next, mkState rest (trace s ++ served line d pdf) (Some (JObj d))).
Proof.
  intros Hs Hwf. pose proof (well_formed_truthy _ _ _ Hwf) as Hhtml.
  destruct Hwf as (Hne & Hloads & _ & Hrender).
  apply iteration_served; assumption.
Qed.

(** The library calls before a failure write nothing on either stream. *)
Lemma fast_failure_silent line e evs :
  fast_failure line e evs ->
  stdout_writes evs = [] /\ stderr_writes evs = [] /\ stdout_bytes evs = [].
Proof.
  intros [v _ _ | d _ _ | d m _ _ _]; try (repeat split; reflexivity).
  destruct (render_trace_calls_only (html_of d) (css_of d)) as (Ho & He & Hb & _).
  auto.
Qed.

Lemma stderr_writes_app (t u : list event) :
  stderr_writes (t ++ u) = stderr_writes t ++ stderr_writes u.
Proof. apply filter_app. Qed.

(** *** The fast bridge: the claims *)


(** C6.  In fast mode, a failure other than a JSON decode error - the parsed
    value is not an object, [html] is empty or missing, or the render raises -
    ends the loop at once: the lines that follow stay unread, nothing is
    written on standard output for the request, and one line is written on
    the diagnostic stream, the JSON object with the error message and the
    stack trace. *)
Theorem fast_failure_terminates s line rest e evs :
  stdin s = line :: rest ->
  line <> EmptyString ->
  fast_failure line e evs ->
  forall fuel,
  exists s' added,
    Fast.serve (S fuel) s = Some (inl tt, s') /\
    stdin s' = rest /\
    trace s' = trace s ++ Readline line :: added /\
    stdout_writes added = [] /\
    stdout_bytes added = [] /\
    stderr_writes added =
      [StderrText
         (json_dumps
            (JObj [("success", JBool false);
                   ("error", JStr (str_exn e));
                   ("traceback", JStr (format_exc e))]) ++ newline)%string].
Proof.
  intros Hs Hne Hfail fuel.
  destruct (iteration_failure s line rest e evs Hs Hne Hfail) as [bound Hit].
  destruct (fast_failure_silent line e evs Hfail) as (Hout & Herr & Hbytes).
  exists (after_line line rest (evs ++ reported e) bound s), (evs ++ reported e).
  split; [apply serve_break, Hit|].
  split; [reflexivity|]. split; [reflexivity|].
  rewrite stdout_writes_app, stdout_bytes_app, stderr_writes_app, Hout, Herr, Hbytes.
  repeat split; reflexivity.
Qed.

(** C7.  In fast mode, two well-formed requests one after the other are
    served in input order: the first line is read, rendered, its bytes are
    written and flushed, and only then the second line is read, rendered,
    written and flushed; the bytes on standard output for the two are the
    first PDF followed by the second. *)
Theorem fast_consecutive_requests_in_order s first second rest d1 d2 pdf1 pdf2 fuel :
  stdin s = first :: second :: rest ->
  well_formed first d1 pdf1 ->
  well_formed second d2 pdf2 ->
  (List.length (stdin s) < fuel)%nat ->
  exists s' evs,
    Fast.serve fuel s = Some (inl tt, s') /\
    trace s' =
      trace s ++
      (Readline first :: render_trace (html_of d1) (css_of d1) ++
         [StdoutBytes pdf1; StdoutFlush]) ++
      (Readline second :: render_trace (html_of d2) (css_of d2) ++
         [StdoutBytes pdf2; StdoutFlush]) ++
      evs /\
    stdout_bytes (served first d1 pdf1 ++ served second d2 pdf2) = pdf1 ++ pdf2.
Proof.
  intros Hs Hwf1 Hwf2 Hfuel.
  rewrite Hs in Hfuel. cbn [List.length] in Hfuel.
  destruct fuel as [|[|fuel]]; try lia.
  pose proof (well_formed_served s first (second :: rest) d1 pdf1 Hs Hwf1) as Hit1.
  rewrite (serve_next _ _ _ Hit1).
  erewrite serve_next by (apply well_formed_served; [reflexivity | exact Hwf2]).
  edestruct (serve_total fuel) as (s' & evs & Hserve & Htrace);
    [|exists s', evs; split; [exact Hserve|]].
  - cbn [stdin]. lia.
  - split.
    + rewrite Htrace. cbn [trace]. unfold served. rewrite <- !app_assoc. reflexivity.
    + unfold served.
      destruct (render_trace_calls_only (html_of d1) (css_of d1)) as (_ & _ & Hb1 & _).
      destruct (render_trace_calls_only (html_of d2) (css_of d2)) as (_ & _ & Hb2 & _).
      rewrite stdout_bytes_app. cbn [stdout_bytes].
      rewrite !stdout_bytes_app, Hb1, Hb2. cbn [stdout_bytes app].
      rewrite !app_nil_r. reflexivity.
Qed.

(** C9.  In fast mode, the end of input (an empty read) ends the loop, and
    the process, with nothing written beyond the readiness line; a line that
    is there but blank, such as a lone line end, is not the end of input: it
    is stripped to the empty text, which [json.loads] rejects, and the loop
    goes on with the next line. *)
Theorem fast_eof_and_blank_line msg :
  json_loads EmptyString = inr msg ->
  (forall s fuel,
     stdin s = [] ->
     Fast.serve (S fuel) s =
     Some (inl tt, mkState [] (trace s ++ [Readline ""]) (input_data s))) /\
  (forall fuel,
     Fast.run (S fuel) [] =
     Some ([StderrText ready_line; StderrFlush; Readline ""], 0)) /\
  (forall s line rest fuel,
     stdin s = line :: rest ->
     line <> EmptyString ->
     blank line = true ->
     Fast.iteration s =
       (inl Fast.Next, mkState rest (trace s ++ [Readline line]) (input_data s)) /\
     Fast.serve (S fuel) s =
       Fast.serve fuel (mkState rest (trace s ++ [Readline line]) (input_data s))).
Proof.
  intros Hempty. split; [|split].
  - intros s fuel Hs. apply serve_break. apply (iteration_eof s Hs).
  - intros fuel. reflexivity.
  - intros s line rest fuel Hs Hne Hblank.
    assert (Hloads : json_loads (strip line) = inr msg)
      by (rewrite (strip_blank line Hblank); exact Hempty).
    pose proof (iteration_decode_error s line rest msg Hs Hne Hloads) as Hit.
    split; [exact Hit | apply serve_next, Hit].
Qed.

End BridgeFacts.

(** ** Further properties of the bridges *)

Section FurtherFacts.
Context `{Libraries}.

Local Open Scope list_scope.

(** *** Texts and truth values *)

Lemma rstrip_snoc_space (s : string) (c : ascii) :
  isspace c = true -> rstrip (s ++ String c EmptyString)%string = rstrip s.
Proof.
  intros Hc. induction s as [|a s IH]; cbn [String.append rstrip].
  - rewrite Hc. reflexivity.
  - rewrite IH. reflexivity.
Qed.

Lemma lstrip_snoc_space (s : string) (c : ascii) :
  isspace c = true ->
  lstrip (s ++ String c EmptyString)%string =
  if blank s then EmptyString else (lstrip s ++ String c EmptyString)%string.
Proof.
  intros Hc. induction s as [|a s IH]; cbn [String.append lstrip blank].
  - rewrite Hc. reflexivity.
  - destruct (isspace a); cbn [andb]; [exact IH | reflexivity].
Qed.

Lemma lstrip_blank (s : string) : blank s = true -> lstrip s = EmptyString.
Proof.
  induction s as [|a s IH]; cbn [blank lstrip]; [reflexivity|].
  intros Hb. apply andb_prop in Hb. destruct Hb as [-> Hs]. auto.
Qed.

(** A whitespace character after a text is stripped. *)
Lemma strip_snoc_space (s : string) (c : ascii) :
  isspace c = true -> strip (s ++ String c EmptyString)%string = strip s.
Proof.
  intros Hc. unfold strip. rewrite (lstrip_snoc_space s c Hc).
  destruct (blank s) eqn:Hb.
  - rewrite (lstrip_blank s Hb). reflexivity.
  - apply rstrip_snoc_space, Hc.
Qed.

(** A whitespace character before a text is stripped. *)
Lemma strip_cons_space (s : string) (c : ascii) :
  isspace c = true -> strip (String c s) = strip s.
Proof. intros Hc. unfold strip. cbn [lstrip]. rewrite Hc. reflexivity. Qed.

Lemma truthy_false_iff (v : json) : truthy v = false <-> falsy_value v.
Proof.
  unfold falsy_value. split.
  - destruct v as [ | b | z | f | t | l | kv]; cbn [truthy]; intros Hv.
    + auto.
    + subst b. auto.
    + apply negb_false_iff, Z.eqb_eq in Hv. subst z. auto.
    + destruct f; try discriminate Hv. right. right. right. left. eauto.
    + apply negb_false_iff, String.eqb_eq in Hv. subst t. auto 10.
    + destruct l; [auto 10 | discriminate Hv].
    + destruct kv; [auto 10 | discriminate Hv].
  - intros [-> | [-> | [-> | [[sign ->] | [-> | [-> | ->]]]]]]; reflexivity.
Qed.

Lemma lines_read_app (t u : list event) :
  lines_read (t ++ u) = lines_read t ++ lines_read u.
Proof.
  induction t as [|ev t IH]; [reflexivity|].
  destruct ev; cbn [lines_read app]; rewrite IH; reflexivity.
Qed.

(** A render starts with the call of [HTML] and reads no line. *)
Lemma render_trace_shape html css :
  (exists calls, render_trace html css = LibHTML html "." :: calls) /\
  lines_read (render_trace html css) = [].
Proof.
  unfold render_trace, render_outcome.
  destruct (HTML html ".") as [doc|m]; [|cbn; eauto].
  destruct (truthy css); [|cbn; eauto].
  destruct (CSS css FontConfiguration_new) as [sheet|m]; cbn; eauto.
Qed.

(** *** The secure bridge on every input *)

(** The six ways the secure bridge handles a first line. *)
Ltac secure_split line :=
  destruct (string_dec line EmptyString) as [-> | Hne];
  [ | destruct (json_loads (strip line)) as [v | m] eqn:Hloads;
      [ destruct (is_dict v) eqn:Hv;
        [ destruct v as [ | | | | | | d]; try discriminate Hv;
          destruct (truthy (html_of d)) eqn:Hhtml;
          [ destruct (rendered (html_of d) (css_of d)) as [pdf | m] eqn:Hrender | ]
        | ]
      | ] ].

(** A line that parses to a JSON value other than an object makes the secure
    bridge fail outside its protocol: [main] raises [AttributeError] at
    [input_data.get], the handler raises it again at its own
    [input_data.get], and the process ends with status 1 and a traceback on
    the diagnostic stream, having printed no response. *)
Theorem secure_non_object_crashes line rest v :
  line <> EmptyString ->
  json_loads (strip line) = inl v ->
  is_dict v = false ->
  Secure.run (line :: rest) =
    ([StderrText ready_line; StderrFlush; Readline line;
      StderrTraceback
        (AttributeError
           ("'" ++ type_name v ++ "' object has no attribute 'get'")%string)],
     1) /\
  stdout_writes (fst (Secure.run (line :: rest))) = [].
Proof.
  intros Hne Hloads Hv.
  rewrite (secure_run_not_dict line rest v Hne Hloads Hv). split; reflexivity.
Qed.

(** The exit status of the secure bridge is 0 or 1, and it is 0 exactly when
    the first line is a request it answers with a PDF: not empty, parsing to
    an object, with a truthy [html], and rendering without an exception. *)
Theorem secure_exit_status lines :
  (snd (Secure.run lines) = 0 <->
   exists line rest, lines = line :: rest /\ secure_accepts line) /\
  (snd (Secure.run lines) = 0 \/ snd (Secure.run lines) = 1).
Proof.
  destruct lines as [|line rest].
  { rewrite secure_run_eof. split; [|right; reflexivity].
    split; [discriminate|]. intros (l & r & Heq & _). discriminate Heq. }
  assert (Hinv : forall l r, line :: rest = l :: r -> secure_accepts l ->
                 secure_accepts line) by (intros l r [= <- _] Hacc; exact Hacc).
  unfold secure_accepts in *.
  secure_split line.
  - rewrite secure_run_empty_line. split; [|right; reflexivity].
    split; [discriminate|]. intros (l & r & Heq & Hacc).
    destruct (Hinv l r Heq Hacc) as (d & pdf & Hne & _). congruence.
  - rewrite (secure_run_success line rest d pdf Hne Hloads Hhtml Hrender).
    split; [|left; reflexivity].
    split; [|reflexivity]. intros _. exists line, rest. split; [reflexivity|].
    exists d, pdf. auto.
  - rewrite (secure_run_render_error line rest d m Hne Hloads Hhtml Hrender).
    split; [|right; reflexivity].
    split; [discriminate|]. intros (l & r & Heq & Hacc).
    destruct (Hinv l r Heq Hacc) as (d' & pdf' & _ & Hl' & _ & Hr'). congruence.
  - rewrite (secure_run_empty_html line rest d Hne Hloads Hhtml).
    split; [|right; reflexivity].
    split; [discriminate|]. intros (l & r & Heq & Hacc).
    destruct (Hinv l r Heq Hacc) as (d' & pdf' & _ & Hl' & Ht' & _). congruence.
  - rewrite (secure_run_not_dict line rest v Hne Hloads Hv).
    split; [|right; reflexivity].
    split; [discriminate|]. intros (l & r & Heq & Hacc).
    destruct (Hinv l r Heq Hacc) as (d' & pdf' & _ & Hl' & _).
    assert (Hobj : v = JObj d') by congruence. subst v. discriminate Hv.
  - rewrite (secure_run_parse_error line rest m Hne Hloads).
    split; [|right; reflexivity].
    split; [discriminate|]. intros (l & r & Heq & Hacc).
    destruct (Hinv l r Heq Hacc) as (d' & pdf' & _ & Hl' & _). congruence.
Qed.

(** The secure bridge serves one request: what it does and its exit status
    are those of its first line alone, whatever follows on standard input,
    and it reads that line only. *)
Theorem secure_serves_first_line_only line rest :
  Secure.run (line :: rest) = Secure.run [line] /\
  lines_read (fst (Secure.run (line :: rest))) = [line].
Proof.
  secure_split line.
  - split; reflexivity.
  - rewrite (secure_run_success line rest d pdf Hne Hloads Hhtml Hrender),
      (secure_run_success line [] d pdf Hne Hloads Hhtml Hrender).
    split; [reflexivity|]. cbn [fst startup app lines_read].
    rewrite lines_read_app, (proj2 (render_trace_shape _ _)). reflexivity.
  - rewrite (secure_run_render_error line rest d m Hne Hloads Hhtml Hrender),
      (secure_run_render_error line [] d m Hne Hloads Hhtml Hrender).
    split; [reflexivity|]. cbn [fst startup app lines_read].
    rewrite lines_read_app, (proj2 (render_trace_shape _ _)). reflexivity.
  - rewrite (secure_run_empty_html line rest d Hne Hloads Hhtml),
      (secure_run_empty_html line [] d Hne Hloads Hhtml).
    split; reflexivity.
  - rewrite (secure_run_not_dict line rest v Hne Hloads Hv),
      (secure_run_not_dict line [] v Hne Hloads Hv).
    split; reflexivity.
  - rewrite (secure_run_parse_error line rest m Hne Hloads),
      (secure_run_parse_error line [] m Hne Hloads).
    split; reflexivity.
Qed.

(** The secure bridge sees a line through [strip] only: two non-empty lines
    that differ in leading or trailing whitespace (a line end, a carriage
    return, indentation) get the same response and the same exit status. *)
Theorem secure_surrounding_whitespace l1 l2 rest1 rest2 :
  l1 <> EmptyString ->
  l2 <> EmptyString ->
  strip l1 = strip l2 ->
  stdout_writes (fst (Secure.run (l1 :: rest1))) =
    stdout_writes (fst (Secure.run (l2 :: rest2))) /\
  snd (Secure.run (l1 :: rest1)) = snd (Secure.run (l2 :: rest2)).
Proof.
  intros Hne1 Hne2 Hstrip.
  secure_split l1; [contradiction | | | | |]; pose proof Hloads as Hloads2;
    rewrite Hstrip in Hloads2.
  - rewrite (secure_run_success l1 rest1 d pdf Hne Hloads Hhtml Hrender),
      (secure_run_success l2 rest2 d pdf Hne2 Hloads2 Hhtml Hrender).
    cbn [fst snd]. rewrite !stdout_writes_response. split; reflexivity.
  - rewrite (secure_run_render_error l1 rest1 d m Hne Hloads Hhtml Hrender),
      (secure_run_render_error l2 rest2 d m Hne2 Hloads2 Hhtml Hrender).
    cbn [fst snd]. rewrite !stdout_writes_response. split; reflexivity.
  - rewrite (secure_run_empty_html l1 rest1 d Hne Hloads Hhtml),
      (secure_run_empty_html l2 rest2 d Hne2 Hloads2 Hhtml).
    split; reflexivity.
  - rewrite (secure_run_not_dict l1 rest1 v Hne Hloads Hv),
      (secure_run_not_dict l2 rest2 v Hne2 Hloads2 Hv).
    split; reflexivity.
  - rewrite (secure_run_parse_error l1 rest1 m Hne Hloads),
      (secure_run_parse_error l2 rest2 m Hne2 Hloads2).
    split; reflexivity.
Qed.

(** For a request that parses to an object, the secure bridge calls the
    renderer unless [html] is missing or false in Python's sense: [null],
    [false], [0], [0.0], the empty text, the empty list or the empty
    object.  Any other value, text or not, is handed to [HTML]: the first
    call into the renderer is [HTML] on the value of [html] itself. *)
Theorem secure_renders_unless_html_falsy line rest d :
  line <> EmptyString ->
  json_loads (strip line) = inl (JObj d) ->
  (render_calls (fst (Secure.run (line :: rest))) = [] <->
   (lookup "html" d = None \/
    exists v, lookup "html" d = Some v /\ falsy_value v)) /\
  (forall v,
     lookup "html" d = Some v ->
     render_calls (fst (Secure.run (line :: rest))) = [] \/
     exists calls,
       render_calls (fst (Secure.run (line :: rest))) = LibHTML v "." :: calls).
Proof.
  intros Hne Hloads.
  assert (Hresponse : forall w,
            render_calls (startup ++ Readline line ::
                          render_trace (html_of d) (css_of d) ++ [printed w]) =
            render_trace (html_of d) (css_of d)).
  { intros w. rewrite render_calls_app. cbn [startup render_calls filter is_render app].
    fold (render_calls (render_trace (html_of d) (css_of d) ++ [printed w])).
    rewrite render_calls_app.
    destruct (render_trace_calls_only (html_of d) (css_of d)) as (_ & _ & _ & ->).
    apply app_nil_r. }
  split.
  2:{ intros v Hv. rewrite <- (html_of_lookup d v Hv).
      destruct (render_trace_shape (html_of d) (css_of d)) as [[calls Hshape] _].
      destruct (truthy (html_of d)) eqn:Hhtml.
      - right. exists calls.
        destruct (rendered (html_of d) (css_of d)) as [pdf | m] eqn:Hrender.
        + rewrite (secure_run_success line rest d pdf Hne Hloads Hhtml Hrender).
          cbn [fst]. rewrite Hresponse. exact Hshape.
        + rewrite (secure_run_render_error line rest d m Hne Hloads Hhtml Hrender).
          cbn [fst]. rewrite Hresponse. exact Hshape.
      - left. rewrite (secure_run_empty_html line rest d Hne Hloads Hhtml).
        reflexivity. }
  assert (Hfalsy : truthy (html_of d) = false <->
                   (lookup "html" d = None \/
                    exists v, lookup "html" d = Some v /\ falsy_value v)).
  { unfold html_of, dict_get. destruct (lookup "html" d) as [v|].
    - rewrite truthy_false_iff. split.
      + intros Hv. right. exists v. auto.
      + intros [Hnone | (v' & [= <-] & Hv)]; [discriminate Hnone | exact Hv].
    - split; [auto | reflexivity]. }
  rewrite <- Hfalsy.
  assert (Hcalls : forall v,
            render_calls (startup ++ Readline line ::
                          render_trace (html_of d) (css_of d) ++ [printed v]) <> []).
  { intros v. rewrite render_calls_app. cbn [startup render_calls filter is_render app].
    fold (render_calls (render_trace (html_of d) (css_of d) ++ [printed v])).
    rewrite render_calls_app.
    destruct (render_trace_calls_only (html_of d) (css_of d)) as (_ & _ & _ & ->).
    destruct (render_trace_shape (html_of d) (css_of d)) as [[calls ->] _].
    discriminate. }
  destruct (truthy (html_of d)) eqn:Hhtml.
  - split; [|discriminate]. intros Hnone. exfalso.
    destruct (rendered (html_of d) (css_of d)) as [pdf | m] eqn:Hrender.
    + rewrite (secure_run_success line rest d pdf Hne Hloads Hhtml Hrender) in Hnone.
      exact (Hcalls _ Hnone).
    + rewrite (secure_run_render_error line rest d m Hne Hloads Hhtml Hrender) in Hnone.
      exact (Hcalls _ Hnone).
  - split; [reflexivity|]. intros _.
    rewrite (secure_run_empty_html line rest d Hne Hloads Hhtml). reflexivity.
Qed.

(** Whatever its input, the secure bridge first writes and flushes the
    readiness line, then reads once, and after that prints at most one line
    and writes no raw bytes. *)
Theorem secure_output_shape lines :
  exists evs,
    fst (Secure.run lines) = startup ++ Readline (hd EmptyString lines) :: evs /\
    lines_read evs = [] /\
    (List.length (stdout_writes evs) <= 1)%nat /\
    stdout_bytes evs = [].
Proof.
  destruct lines as [|line rest].
  { rewrite secure_run_eof. exists []. repeat split; cbn; lia. }
  cbn [hd].
  assert (Hresponse : forall html css v,
            lines_read (render_trace html css ++ [printed v]) = [] /\
            (List.length (stdout_writes (render_trace html css ++ [printed v])) <= 1)%nat /\
            stdout_bytes (render_trace html css ++ [printed v]) = []).
  { intros html css v.
    destruct (render_trace_calls_only html css) as (Hout & _ & Hbytes & _).
    rewrite lines_read_app, stdout_writes_app, stdout_bytes_app, Hout, Hbytes,
      (proj2 (render_trace_shape html css)).
    repeat split; cbn; lia. }
  secure_split line.
  - rewrite secure_run_empty_line. exists []. repeat split; cbn; lia.
  - rewrite (secure_run_success line rest d pdf Hne Hloads Hhtml Hrender).
    eexists. split; [reflexivity|]. apply Hresponse.
  - rewrite (secure_run_render_error line rest d m Hne Hloads Hhtml Hrender).
    eexists. split; [reflexivity|]. apply Hresponse.
  - rewrite (secure_run_empty_html line rest d Hne Hloads Hhtml).
    eexists. split; [reflexivity|]. repeat split; cbn; lia.
  - rewrite (secure_run_not_dict line rest v Hne Hloads Hv).
    eexists. split; [reflexivity|]. repeat split; cbn; lia.
  - rewrite (secure_run_parse_error line rest m Hne Hloads).
    eexists. split; [reflexivity|]. repeat split; cbn; lia.
Qed.

(** *** The render functions *)

(** Both render functions touch the process through the library only: they
    leave standard input and the local variables alone and add nothing to
    the trace but library calls, the first of which is [HTML] with base URL
    ["."].  When they return bytes the last call was [write_pdf]; when they
    raise, it is a plain [Exception] whose message starts with
    ["PDF generation failed: "], never the library's own exception.  The two
    functions give the same result. *)
Theorem generate_pdf_calls_only html css s :
  exists calls,
    snd (Secure.generate_pdf_secure html css s) = log (LibHTML html "." :: calls) s /\
    snd (Fast.generate_pdf_fast html css s) = log (LibHTML html "." :: calls) s /\
    render_calls calls = calls /\
    (forall pdf,
       fst (Secure.generate_pdf_secure html css s) = inl pdf ->
       exists before, LibHTML html "." :: calls = before ++ [LibWritePdf]) /\
    (forall e,
       fst (Secure.generate_pdf_secure html css s) = inr e ->
       exists msg, e = PlainException ("PDF generation failed: " ++ msg)%string) /\
    fst (Fast.generate_pdf_fast html css s) = fst (Secure.generate_pdf_secure html css s).
Proof.
  rewrite generate_pdf_secure_run, generate_pdf_fast_run.
  cbn [fst snd]. unfold rendered, render_trace, render_outcome.
  destruct (HTML html ".") as [doc|m0]; cbn [fst snd].
  2:{ exists []. do 3 (split; [reflexivity|]).
      split; [discriminate|]. split; [|reflexivity].
      intros e He. exists m0. injection He as <-. reflexivity. }
  destruct (truthy css).
  - destruct (CSS css FontConfiguration_new) as [sheet|m1]; cbn [fst snd].
    + exists [LibCSS css; LibWritePdf]. do 3 (split; [reflexivity|]).
      split; [|split; [|reflexivity]].
      * intros pdf _. exists [LibHTML html "."; LibCSS css]. reflexivity.
      * destruct (write_pdf doc [sheet] FontConfiguration_new false) as [pdf|m2];
          cbn [generate_result]; intros e He; [discriminate He|].
        exists m2. injection He as <-. reflexivity.
    + exists [LibCSS css]. do 3 (split; [reflexivity|]).
      split; [discriminate|]. split; [|reflexivity].
      intros e He. exists m1. injection He as <-. reflexivity.
  - exists [LibWritePdf]. do 3 (split; [reflexivity|]).
    split; [|split; [|reflexivity]].
    + intros pdf _. exists [LibHTML html "."]. reflexivity.
    + destruct (write_pdf doc [] FontConfiguration_new false) as [pdf|m2];
        cbn [generate_result]; intros e He; [discriminate He|].
      exists m2. injection He as <-. reflexivity.
Qed.

(** A [css] that is false in Python's sense (missing, [null], the empty
    text) is no stylesheet at all, in [generate_pdf_secure] and in
    [generate_pdf_fast] alike: the function makes no [CSS] call; when [HTML]
    returns a document its calls are [HTML] then [write_pdf], and what it
    returns is what [write_pdf] gives for that document with an empty list of
    stylesheets; and the whole outcome is the one for the same [html] with no
    [css]. *)
Theorem generate_pdf_ignores_falsy_css html css s :
  truthy css = false ->
  (exists calls,
     snd (Secure.generate_pdf_secure html css s) = log calls s /\
     (forall source, ~ In (LibCSS source) calls) /\
     (forall doc,
        HTML html "." = inl doc ->
        calls = [LibHTML html "."; LibWritePdf] /\
        fst (Secure.generate_pdf_secure html css s) =
          generate_result (write_pdf doc [] Secure.FONT_CONFIG false))) /\
  (exists calls,
     snd (Fast.generate_pdf_fast html css s) = log calls s /\
     (forall source, ~ In (LibCSS source) calls) /\
     (forall doc,
        HTML html "." = inl doc ->
        calls = [LibHTML html "."; LibWritePdf] /\
        fst (Fast.generate_pdf_fast html css s) =
          generate_result (write_pdf doc [] Fast.FONT_CONFIG false))) /\
  Secure.generate_pdf_secure html css s = Secure.generate_pdf_secure html JNull s /\
  Fast.generate_pdf_fast html css s = Fast.generate_pdf_fast html JNull s.
Proof.
  intros Hcss.
  assert (Hsame : render_outcome html css = render_outcome html JNull).
  { unfold render_outcome. rewrite Hcss. reflexivity. }
  assert (Hcalls :
            (forall source, ~ In (LibCSS source) (render_trace html css)) /\
            (forall doc,
               HTML html "." = inl doc ->
               render_trace html css = [LibHTML html "."; LibWritePdf] /\
               generate_result (rendered html css) =
                 generate_result (write_pdf doc [] FontConfiguration_new false))).
  { unfold rendered, render_trace, render_outcome. rewrite Hcss. split.
    - intros source.
      destruct (HTML html ".") as [doc|m0]; cbn [snd In];
        intros Hin; repeat (destruct Hin as [Hin | Hin]; [discriminate Hin|]);
        exact Hin.
    - intros doc ->. split; reflexivity. }
  destruct Hcalls as [Hnone Hdoc].
  split; [|split; [|split]].
  - exists (render_trace html css). rewrite generate_pdf_secure_run.
    split; [reflexivity|]. split; [exact Hnone|]. exact Hdoc.
  - exists (render_trace html css). rewrite generate_pdf_fast_run.
    split; [reflexivity|]. split; [exact Hnone|]. exact Hdoc.
  - rewrite !generate_pdf_secure_run. unfold rendered, render_trace.
    rewrite Hsame. reflexivity.
  - rewrite !generate_pdf_fast_run. unfold rendered, render_trace.
    rewrite Hsame. reflexivity.
Qed.

(** *** The fast bridge on every input *)

(** One pass of the loop, whatever the state: the line it read, what it did
    after reading it, and how that relates to the lines still unread. *)
Lemma iteration_summary s :
  exists c line evs bound rest',
    Fast.iteration s =
      (inl c, mkState rest' (trace s ++ Readline line :: evs) bound) /\
    lines_read evs = [] /\
    (exists unread, stdin s ++ [EmptyString] = line :: unread) /\
    (c = Fast.Next -> stdin s = line :: rest') /\
    fast_stdout (stdin s) =
      stdout_bytes evs ++
      match c with Fast.Next => fast_stdout rest' | Fast.Break => [] end /\
    match c with
    | Fast.Next => stderr_writes evs = []
    | Fast.Break => (List.length (stderr_writes evs) <= 1)%nat
    end.
Proof.
  destruct (stdin s) as [|line rest] eqn:Hs.
  { exists Fast.Break, EmptyString, [], (input_data s), [].
    split; [apply (iteration_eof s Hs)|].
    split; [reflexivity|]. split; [eexists; reflexivity|]. split; [discriminate|].
    split; [reflexivity | cbn; lia]. }
  destruct (string_dec line EmptyString) as [Heq | Hne].
  { subst line. exists Fast.Break, EmptyString, [], (input_data s), rest.
    split; [apply (iteration_empty_line s rest Hs)|].
    split; [reflexivity|]. split; [eexists; reflexivity|]. split; [discriminate|].
    split; [reflexivity | cbn; lia]. }
  assert (Hline : (line =? "")%string = false) by (apply String.eqb_neq, Hne).
  cbn [fast_stdout]. rewrite Hline.
  destruct (json_loads (strip line)) as [v | m] eqn:Hloads.
  2:{ exists Fast.Next, line, [], (input_data s), rest.
      split; [apply (iteration_decode_error s line rest m Hs Hne Hloads)|].
      split; [reflexivity|]. split; [eexists; reflexivity|].
      split; [reflexivity|]. split; reflexivity. }
  destruct (is_dict v) eqn:Hv.
  2:{ exists Fast.Break, line, (reported (no_attribute v "get")), (Some v), rest.
      split; [apply (iteration_not_dict s line rest v Hs Hne Hloads Hv)|].
      split; [reflexivity|]. split; [eexists; reflexivity|]. split; [discriminate|].
      split; [destruct v; try discriminate Hv; reflexivity | cbn; lia]. }
  destruct v as [ | | | | | | d]; try discriminate Hv.
  destruct (truthy (html_of d)) eqn:Hhtml.
  2:{ exists Fast.Break, line, (reported (ValueError "HTML content is required")),
        (Some (JObj d)), rest.
      split; [apply (iteration_empty_html s line rest d Hs Hne Hloads Hhtml)|].
      split; [reflexivity|]. split; [eexists; reflexivity|]. split; [discriminate|].
      split; [reflexivity | cbn; lia]. }
  destruct (render_trace_calls_only (html_of d) (css_of d)) as (_ & Herr & Hbytes & _).
  pose proof (proj2 (render_trace_shape (html_of d) (css_of d))) as Hread.
  destruct (rendered (html_of d) (css_of d)) as [pdf | m] eqn:Hrender.
  - exists Fast.Next, line,
      (render_trace (html_of d) (css_of d) ++ [StdoutBytes pdf; StdoutFlush]),
      (Some (JObj d)), rest.
    split; [apply (iteration_served s line rest d pdf Hs Hne Hloads Hhtml Hrender)|].
    rewrite lines_read_app, stdout_bytes_app, stderr_writes_app, Hread, Hbytes, Herr.
    cbn [app lines_read stdout_bytes stderr_writes filter is_stderr].
    rewrite app_nil_r.
    split; [reflexivity|]. split; [eexists; reflexivity|].
    split; [reflexivity|]. split; reflexivity.
  - exists Fast.Break, line,
      (render_trace (html_of d) (css_of d) ++
       reported (PlainException ("PDF generation failed: " ++ m))),
      (Some (JObj d)), rest.
    split; [apply (iteration_render_error s line rest d m Hs Hne Hloads Hhtml Hrender)|].
    rewrite lines_read_app, stdout_bytes_app, stderr_writes_app, Hread, Hbytes, Herr.
    split; [reflexivity|]. split; [eexists; reflexivity|]. split; [discriminate|].
    split; [reflexivity | cbn; lia].
Qed.

(** The whole loop, from any state, with fuel for the lines left. *)
Lemma serve_summary fuel s :
  (List.length (stdin s) < fuel)%nat ->
  exists s' evs,
    Fast.serve fuel s = Some (inl tt, s') /\
    trace s' = trace s ++ evs /\
    stdout_bytes evs = fast_stdout (stdin s) /\
    (List.length (stderr_writes evs) <= 1)%nat /\
    (exists unread, stdin s ++ [EmptyString] = lines_read evs ++ unread).
Proof.
  revert s. induction fuel as [|fuel IH]; intros s Hfuel; [lia|].
  destruct (iteration_summary s)
    as (c & line & evs & bound & rest' & Hit & Hread & [unread Hunread] & Hnext &
        Hout & Herr).
  destruct c.
  - specialize (Hnext eq_refl).
    rewrite (serve_next fuel _ _ Hit).
    destruct (IH (mkState rest' (trace s ++ Readline line :: evs) bound))
      as (s' & evs' & Hserve & Htrace & Hout' & Herr' & [unread' Hunread']).
    { rewrite Hnext in Hfuel. cbn [List.length stdin] in *. lia. }
    cbn [stdin trace] in *.
    exists s', (Readline line :: evs ++ evs').
    split; [exact Hserve|].
    split; [rewrite Htrace, <- app_assoc; reflexivity|].
    split; [|split].
    + cbn [stdout_bytes]. rewrite stdout_bytes_app, Hout', Hout. reflexivity.
    + change (Readline line :: evs ++ evs') with ((Readline line :: evs) ++ evs').
      rewrite stderr_writes_app. cbn [stderr_writes filter is_stderr].
      fold (stderr_writes evs). rewrite Herr. exact Herr'.
    + exists unread'. cbn [lines_read]. rewrite lines_read_app, Hread.
      cbn [app]. rewrite Hnext. cbn [app]. rewrite Hunread'. reflexivity.
  - rewrite (serve_break fuel _ _ Hit).
    eexists. exists (Readline line :: evs).
    split; [reflexivity|]. split; [reflexivity|].
    split; [|split].
    + cbn [stdout_bytes]. rewrite Hout, app_nil_r. reflexivity.
    + cbn [stderr_writes filter is_stderr]. exact Herr.
    + exists unread. cbn [lines_read]. rewrite Hread. exact Hunread.
Qed.

(** The fast bridge ends on every finite input, with status 0 also after a
    failure, and the raw bytes on its standard output are exactly the PDFs
    of the requests in input order: lines that do not decode are skipped,
    and nothing follows the end of input, an empty line or the first
    failure. *)
Theorem fast_stdout_is_the_pdfs fuel lines :
  (List.length lines < fuel)%nat ->
  exists t,
    Fast.run fuel lines = Some (t, 0) /\
    stdout_bytes t = fast_stdout lines.
Proof.
  intros Hfuel. rewrite fast_run_serve.
  destruct (serve_summary fuel (mkState lines startup None) Hfuel)
    as (s' & evs & -> & Htrace & Hout & _).
  cbn [option_map finish]. eexists. split; [reflexivity|].
  rewrite Htrace. cbn [trace stdin] in *.
  rewrite stdout_bytes_app, Hout. reflexivity.
Qed.

(** On the diagnostic stream the fast bridge writes the readiness line
    first and at most one line after it, the error payload: no input makes
    it report twice. *)
Theorem fast_reports_at_most_once fuel lines :
  (List.length lines < fuel)%nat ->
  exists t reports,
    Fast.run fuel lines = Some (t, 0) /\
    stderr_writes t = StderrText ready_line :: reports /\
    (List.length reports <= 1)%nat.
Proof.
  intros Hfuel. rewrite fast_run_serve.
  destruct (serve_summary fuel (mkState lines startup None) Hfuel)
    as (s' & evs & -> & Htrace & _ & Herr & _).
  cbn [option_map finish]. eexists. exists (stderr_writes evs).
  split; [reflexivity|]. split; [|exact Herr].
  rewrite Htrace. cbn [trace]. rewrite stderr_writes_app. reflexivity.
Qed.


(** *** The encoded PDF of a response *)

(** The [pdf_base64] text of a response has four characters for every three
    bytes of the PDF, rounded up, all of them from the base64 alphabet or
    the padding, and all ASCII: [.decode('utf-8')] cannot fail on it. *)
Theorem pdf_base64_shape (pdf : bytes) :
  String.length (Base64.b64encode pdf) = (4 * ((List.length pdf + 2) / 3))%nat /\
  all_chars base64_char (Base64.b64encode pdf) = true /\
  all_chars is_ascii (Base64.b64encode pdf) = true.
Proof.
  split; [apply Base64Facts.b64encode_length|].
  assert (Hchr : forall n i, base64_char (Base64.chr6 n i) = true /\
                             is_ascii (Base64.chr6 n i) = true).
  { intros n i. unfold Base64.chr6.
    pose proof (Base64Facts.sextet_bound n i) as Hlt.
    assert (Hall : forallb (fun k => base64_char (Base64.encode_char k) &&
                                     is_ascii (Base64.encode_char k))
                     (map N.of_nat (seq 0 64)) = true) by (vm_compute; reflexivity).
    rewrite forallb_forall in Hall.
    apply andb_prop, Hall, in_map_iff.
    exists (N.to_nat (Base64.sextet n i)). split; [lia|]. apply in_seq. lia. }
  assert (Hpad : base64_char Base64.pad = true /\ is_ascii Base64.pad = true)
    by (split; reflexivity).
  induction pdf as [| a | a b | a b c rest [IHa IHb]] using Base64Facts.bytes_ind3;
    cbn [Base64.b64encode all_chars];
    repeat rewrite (proj1 (Hchr _ _)); repeat rewrite (proj2 (Hchr _ _));
    try rewrite (proj1 Hpad); try rewrite (proj2 Hpad);
    try rewrite IHa; try rewrite IHb; split; reflexivity.
Qed.

End FurtherFacts.

(* ===================================================================== *)
(** * The statements on example requests *)
(* ===================================================================== *)

Section Examples.
Import Demo.

Local Open Scope list_scope.

Lemma hello_well_formed : well_formed request_hello hello hello_pdf.
Proof.
  split; [vm_compute; discriminate|]. split; [reflexivity|].
  split; [|reflexivity].
  exists "<p>Hi</p>". split; [reflexivity | discriminate].
Defined.

Lemma styled_well_formed : well_formed request_styled styled styled_pdf.
Proof.
  split; [vm_compute; discriminate|]. split; [reflexivity|].
  split; [|reflexivity].
  exists "<b>x</b>". split; [reflexivity | discriminate].
Defined.

Lemma secure_success_envelope_witness :
  exists t,
    Secure.run [request_hello] = (t, 0) /\
    stdout_writes t = [printed (Secure.success_response (JStr "r-1") hello_pdf)] /\
    Base64.b64decode (Base64.b64encode hello_pdf) = Some hello_pdf.
Proof.
  apply (secure_success_envelope request_hello [] hello "<p>Hi</p>" hello_pdf).
  - vm_compute; discriminate.
  - reflexivity.
  - reflexivity.
  - discriminate.
  - reflexivity.
Defined.


Lemma secure_empty_html_rejected_witness :
  (exists t fields,
     Secure.run [request_no_html] = (t, 1) /\
     stdout_writes t = [StdoutText (json_dumps (JObj fields) ++ newline)%string] /\
     lookup "success" fields = Some (JBool false) /\
     lookup "request_id" fields = Some (JStr "r-3") /\
     (exists msg, lookup "error" fields = Some (JStr msg)) /\
     lookup "pdf_base64" fields = None /\
     render_calls t = []) /\
  (exists t fields,
     Secure.run [request_empty_html] = (t, 1) /\
     stdout_writes t = [StdoutText (json_dumps (JObj fields) ++ newline)%string] /\
     lookup "success" fields = Some (JBool false) /\
     lookup "request_id" fields = Some (JStr "r-2") /\
     (exists msg, lookup "error" fields = Some (JStr msg)) /\
     lookup "pdf_base64" fields = None /\
     render_calls t = []).
Proof.
  split.
  - apply (secure_empty_html_rejected request_no_html [] no_html).
    + vm_compute; discriminate.
    + reflexivity.
    + left. reflexivity.
  - apply (secure_empty_html_rejected request_empty_html [] empty_html).
    + vm_compute; discriminate.
    + reflexivity.
    + right. reflexivity.
Defined.

Lemma secure_request_id_echoed_witness :
  (exists t code fields,
     Secure.run [request_hello] = (t, code) /\
     stdout_writes t = [StdoutText (json_dumps (JObj fields) ++ newline)%string] /\
     (forall v, lookup "request_id" hello = Some v ->
                lookup "request_id" fields = Some v) /\
     (lookup "request_id" hello = None ->
      lookup "request_id" fields = Some (JStr "unknown"))) /\
  (exists t code fields,
     Secure.run [request_anonymous] = (t, code) /\
     stdout_writes t = [StdoutText (json_dumps (JObj fields) ++ newline)%string] /\
     (forall v, lookup "request_id" anonymous = Some v ->
                lookup "request_id" fields = Some v) /\
     (lookup "request_id" anonymous = None ->
      lookup "request_id" fields = Some (JStr "unknown"))).
Proof.
  split.
  - apply (secure_request_id_echoed request_hello [] hello).
    + vm_compute; discriminate.
    + reflexivity.
  - apply (secure_request_id_echoed request_anonymous [] anonymous).
    + vm_compute; discriminate.
    + reflexivity.
Defined.


Lemma fast_failure_terminates_witness :
  exists s' added,
    Fast.serve 1 (started [request_no_html; request_hello]) = Some (inl tt, s') /\
    stdin s' = [request_hello] /\
    trace s' = startup ++ Readline request_no_html :: added /\
    stdout_writes added = [] /\
    stdout_bytes added = [] /\
    stderr_writes added =
      [StderrText
         (json_dumps
            (JObj [("success", JBool false);
                   ("error", JStr "HTML content is required");
                   ("traceback",
                    JStr "Traceback (most recent call last): HTML content is required")])
          ++ newline)%string].
Proof.
  refine (fast_failure_terminates (started [request_no_html; request_hello])
            request_no_html [request_hello]
            (ValueError "HTML content is required") []
            eq_refl _ (FastEmptyHtml request_no_html no_html eq_refl eq_refl) 0%nat).
  vm_compute; discriminate.
Defined.

Lemma fast_consecutive_requests_in_order_witness :
  exists s' evs,
    Fast.serve 3 (started [request_hello; request_styled]) = Some (inl tt, s') /\
    trace s' =
      startup ++
      (Readline request_hello :: [LibHTML (JStr "<p>Hi</p>") "."; LibWritePdf] ++
         [StdoutBytes hello_pdf; StdoutFlush]) ++
      (Readline request_styled ::
         [LibHTML (JStr "<b>x</b>") "."; LibCSS (JStr "b{}"); LibWritePdf] ++
         [StdoutBytes styled_pdf; StdoutFlush]) ++
      evs /\
    stdout_bytes (served request_hello hello hello_pdf ++
                  served request_styled styled styled_pdf) =
    hello_pdf ++ styled_pdf.
Proof.
  refine (fast_consecutive_requests_in_order (started [request_hello; request_styled])
            request_hello request_styled [] hello styled hello_pdf styled_pdf 3%nat
            eq_refl hello_well_formed styled_well_formed _).
  cbn. lia.
Defined.

Lemma fast_eof_and_blank_line_witness :
  Fast.serve 1 (started []) =
    Some (inl tt, mkState [] (startup ++ [Readline ""]) None) /\
  Fast.run 1 [] = Some ([StderrText ready_line; StderrFlush; Readline ""], 0) /\
  Fast.iteration (started [newline; request_hello]) =
    (inl Fast.Next, mkState [request_hello] (startup ++ [Readline newline]) None) /\
  Fast.serve 3 (started [newline; request_hello]) =
    Fast.serve 2 (mkState [request_hello] (startup ++ [Readline newline]) None).
Proof.
  destruct (@fast_eof_and_blank_line libraries "Expecting value" eq_refl)
    as (Heof & Hrun & Hblank).
  split; [exact (Heof (started []) 0%nat eq_refl)|].
  split; [exact (Hrun 0%nat)|].
  apply (Hblank (started [newline; request_hello]) newline [request_hello] 2%nat).
  - reflexivity.
  - discriminate.
  - reflexivity.
Defined.

End Examples.

(** * The further properties on example requests *)

Section FurtherExamples.
Import Demo.

Local Open Scope list_scope.

Lemma secure_non_object_crashes_witness :
  Secure.run [request_list; request_hello] =
    ([StderrText ready_line; StderrFlush; Readline request_list;
      StderrTraceback (AttributeError "'list' object has no attribute 'get'")],
     1) /\
  stdout_writes (fst (Secure.run [request_list; request_hello])) = [].
Proof.
  refine (@secure_non_object_crashes libraries request_list [request_hello]
            (JList []) _ eq_refl eq_refl).
  vm_compute; discriminate.
Defined.

Lemma hello_accepted : secure_accepts request_hello.
Proof.
  exists hello, hello_pdf.
  split; [vm_compute; discriminate|]. repeat split; reflexivity.
Defined.

Lemma secure_exit_status_witness :
  snd (Secure.run [request_hello; request_garbage]) = 0 /\
  (snd (Secure.run [request_garbage]) = 0 \/ snd (Secure.run [request_garbage]) = 1).
Proof.
  split.
  - apply (proj1 (@secure_exit_status libraries [request_hello; request_garbage])).
    exists request_hello, [request_garbage]. split; [reflexivity | exact hello_accepted].
  - exact (proj2 (@secure_exit_status libraries [request_garbage])).
Defined.

Lemma secure_surrounding_whitespace_witness :
  stdout_writes (fst (Secure.run [request_hello])) =
    stdout_writes
      (fst (Secure.run
              [String " " (String "009" (request_hello ++ String "013" newline))%string;
               request_garbage])) /\
  snd (Secure.run [request_hello]) =
    snd (Secure.run
           [String " " (String "009" (request_hello ++ String "013" newline))%string;
            request_garbage]).
Proof.
  apply (@secure_surrounding_whitespace libraries).
  - vm_compute; discriminate.
  - discriminate.
  - reflexivity.
Defined.

Lemma secure_renders_unless_html_falsy_witness :
  (render_calls (fst (Secure.run [request_no_html])) = [] <->
   (lookup "html" no_html = None \/
    exists v, lookup "html" no_html = Some v /\ falsy_value v)) /\
  render_calls (fst (Secure.run [request_empty_html])) = [].
Proof.
  split.
  - refine (proj1 (@secure_renders_unless_html_falsy libraries request_no_html []
                     no_html _ eq_refl)).
    vm_compute; discriminate.
  - refine (proj2 (proj1 (@secure_renders_unless_html_falsy libraries
                            request_empty_html [] empty_html _ eq_refl)) _).
    + vm_compute; discriminate.
    + right. exists (JStr ""). split; [reflexivity|].
      right. right. right. right. left. reflexivity.
Defined.

Lemma generate_pdf_ignores_falsy_css_witness :
  (exists calls,
     snd (Secure.generate_pdf_secure (JStr "<p>Hi</p>") (JStr "") (started [])) =
       log calls (started []) /\
     (forall source, ~ In (LibCSS source) calls) /\
     (forall doc,
        HTML (JStr "<p>Hi</p>") "." = inl doc ->
        calls = [LibHTML (JStr "<p>Hi</p>") "."; LibWritePdf] /\
        fst (Secure.generate_pdf_secure (JStr "<p>Hi</p>") (JStr "") (started [])) =
          generate_result (write_pdf doc [] Secure.FONT_CONFIG false))) /\
  (exists calls,
     snd (Fast.generate_pdf_fast (JStr "<p>Hi</p>") (JStr "") (started [])) =
       log calls (started []) /\
     (forall source, ~ In (LibCSS source) calls) /\
     (forall doc,
        HTML (JStr "<p>Hi</p>") "." = inl doc ->
        calls = [LibHTML (JStr "<p>Hi</p>") "."; LibWritePdf] /\
        fst (Fast.generate_pdf_fast (JStr "<p>Hi</p>") (JStr "") (started [])) =
          generate_result (write_pdf doc [] Fast.FONT_CONFIG false))) /\
  Secure.generate_pdf_secure (JStr "<p>Hi</p>") (JStr "") (started []) =
    Secure.generate_pdf_secure (JStr "<p>Hi</p>") JNull (started []) /\
  Fast.generate_pdf_fast (JStr "<p>Hi</p>") (JStr "") (started []) =
    Fast.generate_pdf_fast (JStr "<p>Hi</p>") JNull (started []).
Proof.
  exact (@generate_pdf_ignores_falsy_css libraries (JStr "<p>Hi</p>") (JStr "")
           (started []) eq_refl).
Defined.

Lemma fast_stdout_is_the_pdfs_witness :
  exists t,
    Fast.run 6 mixed_requests = Some (t, 0) /\
    stdout_bytes t = hello_pdf ++ styled_pdf.
Proof.
  refine (@fast_stdout_is_the_pdfs libraries 6%nat mixed_requests _).
  cbn. lia.
Defined.

Lemma fast_reports_at_most_once_witness :
  exists t reports,
    Fast.run 6 mixed_requests = Some (t, 0) /\
    stderr_writes t = StderrText ready_line :: reports /\
    (List.length reports <= 1)%nat.
Proof.
  refine (@fast_reports_at_most_once libraries 6%nat mixed_requests _).
  cbn. lia.
Defined.


End FurtherExamples.
